(** * vitamin-bot: the reminder scheduler and the dose state machine

    A shallow embedding of [main.py].  The module-level globals
    [user_states] and [registered_users] become the fields of a [World]
    record that every handler threads through a small state-and-exception
    monad; what the handlers do to the outside (writing the data file,
    sending a message, logging an error) is recorded, in order, in the
    world's [trace].  The clock ([datetime.now(TIMEZONE)]) and the outcome
    of a Telegram send are inputs of the handlers. *)

From Stdlib Require Import ZArith NArith List Ascii String Bool Lia.
From stdpp Require Import base decidable option gmap strings pretty list.

Local Open Scope string_scope.
Local Open Scope Z_scope.

(** ** Calendar dates ([datetime.date]) *)

Module PyDate.

Record date := mkDate { year : Z; month : Z; day : Z }.

Definition _is_leap (y : Z) : bool :=
  (y mod 4 =? 0) && (negb (y mod 100 =? 0) || (y mod 400 =? 0)).

Definition _days_before_year (y0 : Z) : Z :=
  let y := y0 - 1 in y * 365 + y / 4 - y / 100 + y / 400.

Definition _DAYS_IN_MONTH : list Z :=
  [31; 28; 31; 30; 31; 30; 31; 31; 30; 31; 30; 31].

Definition _days_in_month (y m : Z) : Z :=
  if (m =? 2) && _is_leap y then 29
  else nth (Z.to_nat (m - 1)) _DAYS_IN_MONTH 0.

(** [_DAYS_BEFORE_MONTH[month]]: the days of the months before [m] in a
    common year. *)
Definition _DAYS_BEFORE_MONTH (m : Z) : Z :=
  fold_right Z.add 0 (firstn (Z.to_nat (m - 1)) _DAYS_IN_MONTH).

Definition _days_before_month (y m : Z) : Z :=
  _DAYS_BEFORE_MONTH m + (if (2 <? m) && _is_leap y then 1 else 0).

Definition _ymd2ord (y m d : Z) : Z :=
  _days_before_year y + _days_before_month y m + d.

(** What the constructor of [date] checks. *)
Definition valid (d : date) : bool :=
  (1 <=? year d) && (year d <=? 9999) &&
  (1 <=? month d) && (month d <=? 12) &&
  (1 <=? day d) && (day d <=? _days_in_month (year d) (month d)).

Definition toordinal (d : date) : Z := _ymd2ord (year d) (month d) (day d).

(** Monday is 0, Sunday is 6. *)
Definition weekday (d : date) : Z := (toordinal d + 6) mod 7.

(** Monday is 1, Sunday is 7: [self.toordinal() % 7 or 7]. *)
Definition isoweekday (d : date) : Z :=
  let r := toordinal d mod 7 in if r =? 0 then 7 else r.

(** [str.zfill]-like padding, for the [%04d] and [%02d] of [isoformat]. *)
Definition zero_pad (width : nat) (s : string) : string :=
  fold_right (fun _ acc => String "0" acc) s
             (seq 0 (width - String.length s)).

(** ["%04d-%02d-%02d" % (year, month, day)] *)
Definition isoformat (d : date) : string :=
  zero_pad 4 (pretty (year d)) +:+ "-" +:+
  zero_pad 2 (pretty (month d)) +:+ "-" +:+
  zero_pad 2 (pretty (day d)).

End PyDate.

Import PyDate.

(** ** The per-user record ([class VitaminState]) *)

Record VitaminState := mkVitaminState {
  morning_taken : bool;
  lunch_taken : bool;
  morning_reminder_count : Z;
  lunch_reminder_count : Z;
  last_reset : string
}.

(** [VitaminState.__init__], at a clock that reads [today]. *)
Definition VitaminState_init (today : string) : VitaminState :=
  {| morning_taken := false;
     lunch_taken := false;
     morning_reminder_count := 0;
     lunch_reminder_count := 0;
     last_reset := today |}.

(** [VitaminState.reset_if_new_day], at a clock that reads [today]. *)
Definition reset_if_new_day (today : string) (self : VitaminState)
  : VitaminState :=
  if negb (String.eqb today (last_reset self)) then
    {| morning_taken := false;
       lunch_taken := false;
       morning_reminder_count := 0;
       lunch_reminder_count := 0;
       last_reset := today |}
  else self.

(** Attribute assignments [state.f = v]. *)
Definition set_morning_taken (v : bool) (s : VitaminState) : VitaminState :=
  {| morning_taken := v;
     lunch_taken := lunch_taken s;
     morning_reminder_count := morning_reminder_count s;
     lunch_reminder_count := lunch_reminder_count s;
     last_reset := last_reset s |}.

Definition set_lunch_taken (v : bool) (s : VitaminState) : VitaminState :=
  {| morning_taken := morning_taken s;
     lunch_taken := v;
     morning_reminder_count := morning_reminder_count s;
     lunch_reminder_count := lunch_reminder_count s;
     last_reset := last_reset s |}.

Definition set_morning_reminder_count (v : Z) (s : VitaminState)
  : VitaminState :=
  {| morning_taken := morning_taken s;
     lunch_taken := lunch_taken s;
     morning_reminder_count := v;
     lunch_reminder_count := lunch_reminder_count s;
     last_reset := last_reset s |}.

Definition set_lunch_reminder_count (v : Z) (s : VitaminState)
  : VitaminState :=
  {| morning_taken := morning_taken s;
     lunch_taken := lunch_taken s;
     morning_reminder_count := morning_reminder_count s;
     lunch_reminder_count := v;
     last_reset := last_reset s |}.

(** ** Python strings ([str]) as sequences of code points *)

Module PyStr.

Abbreviation pystr := (list N).

(** The tables of the Unicode character database that [str.lower] reads;
    they differ between Python versions, so they are a parameter. *)
Record UnicodeData := mkUnicodeData {
  to_lower_full : N -> list N;      (* [_PyUnicode_ToLowerFull] *)
  is_cased : N -> bool;             (* [_PyUnicode_IsCased] *)
  is_case_ignorable : N -> bool     (* [_PyUnicode_IsCaseIgnorable] *)
}.

(** [_PyUnicode_IsWhitespace], the test behind [str.isspace] and
    [str.strip()]. *)
Definition isspace (c : N) : bool :=
  ((0x09 <=? c) && (c <=? 0x0D) ||
   (0x1C <=? c) && (c <=? 0x20) ||
   (c =? 0x85) || (c =? 0xA0) || (c =? 0x1680) ||
   (0x2000 <=? c) && (c <=? 0x200A) ||
   (c =? 0x2028) || (c =? 0x2029) || (c =? 0x202F) ||
   (c =? 0x205F) || (c =? 0x3000))%N.

Fixpoint dropwhile {A} (p : A -> bool) (l : list A) : list A :=
  match l with
  | [] => []
  | x :: l' => if p x then dropwhile p l' else l
  end.

Definition lstrip (s : pystr) : pystr := dropwhile isspace s.
Definition rstrip (s : pystr) : pystr := rev (dropwhile isspace (rev s)).

(** [str.strip()] without argument. *)
Definition strip (s : pystr) : pystr := rstrip (lstrip s).

Section Lower.
Context (ucd : UnicodeData).

(** [handle_capital_sigma]: the capital sigma at hand has the code points
    [before_rev] before it (nearest first) and [after] after it. *)
Definition final_sigma (before_rev after : pystr) : bool :=
  match dropwhile (is_case_ignorable ucd) before_rev with
  | [] => false
  | c :: _ =>
      is_cased ucd c &&
      match dropwhile (is_case_ignorable ucd) after with
      | [] => true
      | d :: _ => negb (is_cased ucd d)
      end
  end.

Definition handle_capital_sigma (before_rev after : pystr) : N :=
  if final_sigma before_rev after then 0x3C2%N else 0x3C3%N.

Definition lower_ucs4 (before_rev : pystr) (c : N) (after : pystr)
  : list N :=
  if (c =? 0x3A3)%N then [handle_capital_sigma before_rev after]
  else to_lower_full ucd c.

Fixpoint do_lower (before_rev s : pystr) : pystr :=
  match s with
  | [] => []
  | c :: rest => lower_ucs4 before_rev c rest ++ do_lower (c :: before_rev) rest
  end.

(** [str.lower()]; CPython's shortcut for all-ASCII strings gives what the
    tables give. *)
Definition lower (s : pystr) : pystr := do_lower [] s.

End Lower.

(** Reading a literal of the source file (UTF-8) as code points. *)
Fixpoint utf8_decode (bs : list N) : pystr :=
  match bs with
  | [] => []
  | b0 :: r0 =>
      if (b0 <? 0x80)%N then b0 :: utf8_decode r0
      else match r0 with
      | [] => []
      | b1 :: r1 =>
          if (b0 <? 0xE0)%N then
            ((b0 - 0xC0) * 64 + (b1 - 0x80))%N :: utf8_decode r1
          else match r1 with
          | [] => []
          | b2 :: r2 =>
              if (b0 <? 0xF0)%N then
                ((b0 - 0xE0) * 4096 + (b1 - 0x80) * 64 + (b2 - 0x80))%N
                  :: utf8_decode r2
              else match r2 with
              | [] => []
              | b3 :: r3 =>
                  ((b0 - 0xF0) * 262144 + (b1 - 0x80) * 4096
                   + (b2 - 0x80) * 64 + (b3 - 0x80))%N :: utf8_decode r3
              end
          end
      end
  end.

Definition py (s : string) : pystr :=
  utf8_decode (map N_of_ascii (list_ascii_of_string s)).

(** A small instance of the tables: ASCII, the Cyrillic block and the
    Greek sigmas; every other code point is uncased. *)
Definition small_to_lower (c : N) : list N :=
  (if (0x41 <=? c) && (c <=? 0x5A) then [c + 32]
   else if (0x410 <=? c) && (c <=? 0x42F) then [c + 32]
   else if (0x400 <=? c) && (c <=? 0x40F) then [c + 80]
   else if c =? 0x3A3 then [0x3C3]
   else [c])%N.

Definition small_is_cased (c : N) : bool :=
  ((0x41 <=? c) && (c <=? 0x5A) || (0x61 <=? c) && (c <=? 0x7A) ||
   (0x400 <=? c) && (c <=? 0x45F) ||
   (c =? 0x3A3) || (c =? 0x3C2) || (c =? 0x3C3))%N.

Definition small_is_case_ignorable (c : N) : bool :=
  ((c =? 0x27) || (c =? 0x2E) || (c =? 0x3A) || (c =? 0x5E) || (c =? 0x60) ||
   (c =? 0xAD) || (0x300 <=? c) && (c <=? 0x36F))%N.

Definition small_ucd : UnicodeData :=
  {| to_lower_full := small_to_lower;
     is_cased := small_is_cased;
     is_case_ignorable := small_is_case_ignorable |}.

End PyStr.

Import PyStr.

(** ** The process state and the handlers' monad *)

(** What a handler does to the outside, in the order it happens. *)
Inductive event :=
| Saved (states : gmap Z VitaminState) (users : gset Z)
    (* [save_data] writes this snapshot to the data file *)
| SendMessage (chat_id : Z) (text : string) (keyboard : bool)
    (delivered : bool)
    (* [bot.send_message] / [message.reply_text], and whether it returned *)
| LogError (user_id : Z).
    (* [logger.error] of the reminder handler *)

Record World := mkWorld {
  user_states : gmap Z VitaminState;
  registered_users : gset Z;
  trace : list event
}.

Inductive outcome (A : Type) :=
| Returned (a : A)
| Raised.
Arguments Returned {A} a.
Arguments Raised {A}.

Definition M (A : Type) : Type := World -> outcome A * World.

#[global] Instance M_ret : MRet M := fun A a w => (Returned a, w).

#[global] Instance M_bind : MBind M := fun A B f m w =>
  match m w with
  | (Returned a, w') => f a w'
  | (Raised, w') => (Raised, w')
  end.

(** [try: body except Exception: handler] *)
Definition try_except (body handler : M unit) : M unit := fun w =>
  match body w with
  | (Returned a, w') => (Returned a, w')
  | (Raised, w') => handler w'
  end.

Definition get_world : M World := fun w => (Returned w, w).

Definition emit (e : event) : M unit := fun w =>
  (Returned tt,
   {| user_states := user_states w;
      registered_users := registered_users w;
      trace := trace w ++ [e] |}).

Definition put_user_states (states : gmap Z VitaminState) : M unit := fun w =>
  (Returned tt,
   {| user_states := states;
      registered_users := registered_users w;
      trace := trace w |}).

(** An assignment to an attribute of [state]: the object is the one stored
    in [user_states] under [user_id], so the store sees the change. *)
Definition modify_state (user_id : Z) (f : VitaminState -> VitaminState)
  : M unit :=
  w ← get_world; put_user_states (alter f user_id (user_states w)).

Definition log_error (user_id : Z) : M unit := emit (LogError user_id).

(** The final world and result of a handler started in [w]. *)
Definition run {A} (m : M A) (w : World) : outcome A * World := m w.

Definition state_of (user_id : Z) (w : World) : option VitaminState :=
  user_states w !! user_id.

(** ** Message texts *)

Definition nl : string := String "010" "".

Definition join (sep : string) (l : list string) : string :=
  match l with
  | [] => ""
  | x :: l' => fold_left (fun acc y => acc +:+ sep +:+ y) l' x
  end.

Definition TEXT_MORNING_FIRST : string :=
  "🌅 Доброе утро! Время утренних витаминов! 💊" +:+ nl +:+ nl +:+
  "Успеваешь принять?".

Definition TEXT_MORNING_SECOND : string :=
  "⏰ Напоминаю про утренние витамины! 💊" +:+ nl +:+ nl +:+
  "Успеваешь принять?".

Definition TEXT_LUNCH_FIRST_BOTH : string :=
  "🍽 Время обеденных витаминов! 💊" +:+ nl +:+ nl +:+
  "⚠️ Кажется, утренние витамины ещё не приняты!" +:+ nl +:+ nl +:+
  "Успеваешь принять ОБА вида?".

Definition TEXT_LUNCH_FIRST : string :=
  "🍽 Время обеденных витаминов! 💊" +:+ nl +:+ nl +:+
  "Успеваешь принять?".

Definition TEXT_LUNCH_SECOND_BOTH : string :=
  "⏰ Напоминаю про витамины! 💊" +:+ nl +:+ nl +:+
  "⚠️ Утренние и обеденные ещё не приняты!" +:+ nl +:+ nl +:+
  "Успеваешь принять оба вида?".

Definition TEXT_LUNCH_SECOND : string :=
  "⏰ Напоминаю про обеденные витамины! 💊" +:+ nl +:+ nl +:+
  "Успеваешь принять?".

Definition NAME_MORNING : string := "утренние 🌅".
Definition NAME_LUNCH : string := "обеденные 🍽".

Definition TEXT_FINAL (vitamins_text : string) : string :=
  "🚨 Последнее напоминание на сегодня! 🚨" +:+ nl +:+ nl +:+
  "Не забыты " +:+ vitamins_text +:+ " витамины!" +:+ nl +:+ nl +:+
  "Успеваешь принять?".

Definition TEXT_CONGRATULATION : string :=
  "🎉 Отлично! Сегодня все витамины приняты! Молодец! 💪✨".

Definition TEXT_MORNING_ACCEPTED : string :=
  "Супер! Утренние витамины приняты! 💊✨".
Definition TEXT_LUNCH_ACCEPTED : string :=
  "Супер! Обеденные витамины приняты! 💊✨".
Definition TEXT_ALREADY_COMPLETE : string := "Всё уже принято на сегодня! 🎉".
Definition TEXT_REMIND_LATER : string := "Хорошо, напомню позже! ⏰".
Definition TEXT_HELP : string :=
  "Пожалуйста, используй кнопки 'Да' или 'Нет', " +:+
  "или команды /status, /reset, /schedule 😊".
Definition TEXT_RESET_DONE : string :=
  "Статус сброшен! Можно начинать заново 🔄".

(** The part of a Telegram [Update] the handlers read. *)
Record Update := mkUpdate {
  effective_user_id : Z;
  message_chat_id : Z;
  message_text : pystr
}.

(** ** The handlers *)

Section Handlers.

(** [now] is the date [datetime.now(TIMEZONE)] reads while the handler
    runs; [notifier chat_id text] tells whether Telegram accepts the
    message (the call raises otherwise); [ucd] are the tables behind
    [str.lower]. *)
Context (ucd : UnicodeData) (now : date) (notifier : Z -> string -> bool).

Definition today : string := isoformat now.

(** [save_data]: the whole store is written out; a failure of the write is
    logged inside [save_data] and does not reach the caller. *)
Definition save_data : M unit :=
  w ← get_world; emit (Saved (user_states w) (registered_users w)).

Definition get_user_state (user_id : Z) : M VitaminState :=
  w ← get_world;
  let state0 :=
    match user_states w !! user_id with
    | Some s => s
    | None => VitaminState_init today
    end in
  let state := reset_if_new_day today state0 in
  put_user_states (<[user_id := state]> (user_states w));;
  save_data;;
  mret state.

Definition is_weekend : bool := 5 <=? weekday now.

Definition get_schedule_times : list (string * (Z * Z)) :=
  if is_weekend then
    [("morning_first", (13, 20)); ("morning_second", (13, 40));
     ("lunch_first", (16, 0)); ("lunch_second", (16, 20));
     ("final", (18, 45))]
  else
    [("morning_first", (12, 20)); ("morning_second", (12, 40));
     ("lunch_first", (15, 0)); ("lunch_second", (15, 20));
     ("final", (17, 45))].

Definition send_message (chat_id : Z) (text : string) (keyboard : bool)
  : M unit := fun w =>
  let delivered := notifier chat_id text in
  let (_, w') := emit (SendMessage chat_id text keyboard delivered) w in
  (if delivered then Returned tt else Raised, w').

Definition reply_text (update : Update) (text : string) : M unit :=
  send_message (message_chat_id update) text false.

Definition reset (update : Update) : M unit :=
  let user_id := effective_user_id update in
  _ ← get_user_state user_id;
  modify_state user_id (set_morning_taken false);;
  modify_state user_id (set_lunch_taken false);;
  modify_state user_id (set_morning_reminder_count 0);;
  modify_state user_id (set_lunch_reminder_count 0);;
  save_data;;
  reply_text update TEXT_RESET_DONE.

Definition handle_response (update : Update) : M unit :=
  let user_id := effective_user_id update in
  state ← get_user_state user_id;
  let text := strip (lower ucd (message_text update)) in
  if bool_decide (text = py "да") then
    if negb (morning_taken state) then
      modify_state user_id (set_morning_taken true);;
      save_data;;
      reply_text update TEXT_MORNING_ACCEPTED
    else if negb (lunch_taken state) then
      modify_state user_id (set_lunch_taken true);;
      save_data;;
      reply_text update TEXT_LUNCH_ACCEPTED
    else
      reply_text update TEXT_ALREADY_COMPLETE
  else if bool_decide (text = py "нет") then
    reply_text update TEXT_REMIND_LATER
  else
    reply_text update TEXT_HELP.

(** The list [messages] of the [final] branch. *)
Definition missing_doses (state : VitaminState) : list string :=
  (if negb (morning_taken state) then [NAME_MORNING] else []) ++
  (if negb (lunch_taken state) then [NAME_LUNCH] else []).

(** The body of the [try] block before its closing [save_data]. *)
Definition reminder_branch (user_id : Z) (reminder_type : string)
    (state : VitaminState) : M unit :=
  if String.eqb reminder_type "morning_first" then
    if negb (morning_taken state) then
      send_message user_id TEXT_MORNING_FIRST true;;
      modify_state user_id (set_morning_reminder_count 1)
    else mret tt
  else if String.eqb reminder_type "morning_second" then
    if negb (morning_taken state) then
      send_message user_id TEXT_MORNING_SECOND true;;
      modify_state user_id (set_morning_reminder_count 2)
    else mret tt
  else if String.eqb reminder_type "lunch_first" then
    (if negb (morning_taken state) && negb (lunch_taken state) then
       send_message user_id TEXT_LUNCH_FIRST_BOTH true
     else if negb (lunch_taken state) then
       send_message user_id TEXT_LUNCH_FIRST true
     else mret tt);;
    modify_state user_id (set_lunch_reminder_count 1)
  else if String.eqb reminder_type "lunch_second" then
    if negb (morning_taken state) && negb (lunch_taken state) then
      send_message user_id TEXT_LUNCH_SECOND_BOTH true
    else if negb (lunch_taken state) then
      send_message user_id TEXT_LUNCH_SECOND true
    else mret tt
  else if String.eqb reminder_type "final" then
    let messages := missing_doses state in
    match messages with
    | _ :: _ =>
        let vitamins_text := join " и " messages in
        send_message user_id (TEXT_FINAL vitamins_text) true
    | [] =>
        send_message user_id TEXT_CONGRATULATION false
    end
  else mret tt.

(** The job callback; [user_id] is [context.job.chat_id] and
    [reminder_type] is [context.job.data.get('type')]. *)
Definition send_vitamin_reminder (user_id : Z) (reminder_type : string)
  : M unit :=
  state ← get_user_state user_id;
  try_except
    (reminder_branch user_id reminder_type state;;
     save_data)
    (log_error user_id).

End Handlers.

(** ** The job queue *)

(** A job as [run_daily] was asked for it: [job_time] and [job_days] are
    the arguments as passed.  On which days of the week and at which
    instant the library fires the job is not part of this development. *)
Record Job := mkJob {
  job_name : string;
  job_chat_id : Z;
  job_type : string;         (* [data['type']] *)
  job_time : Z * Z;          (* hour, minute, as passed *)
  job_days : list Z          (* the tuple [days], as passed *)
}.

#[global] Instance Job_eq_dec : EqDecision Job.
Proof. solve_decision. Defined.

(** [JobQueue.get_jobs_by_name]: the jobs whose name is exactly [name]. *)
Definition get_jobs_by_name (job_queue : list Job) (name : string)
  : list Job :=
  filter (fun job => job_name job = name) job_queue.

(** [Job.schedule_removal]: that job leaves the queue. *)
Fixpoint schedule_removal (job : Job) (job_queue : list Job) : list Job :=
  match job_queue with
  | [] => []
  | j :: q => if decide (j = job) then q else j :: schedule_removal job q
  end.

(** [JobQueue.run_daily]: the job joins the queue under the given name. *)
Definition run_daily (job_queue : list Job) (time : Z * Z) (days : list Z)
    (chat_id : Z) (type : string) (name : string) : list Job :=
  job_queue ++ [{| job_name := name; job_chat_id := chat_id;
                   job_type := type; job_time := time; job_days := days |}].

Definition times_weekday : list (string * (Z * Z)) :=
  [("morning_first", (12, 20)); ("morning_second", (12, 40));
   ("lunch_first", (15, 0)); ("lunch_second", (15, 20));
   ("final", (17, 45))].

Definition times_weekend : list (string * (Z * Z)) :=
  [("morning_first", (13, 20)); ("morning_second", (13, 40));
   ("lunch_first", (16, 0)); ("lunch_second", (16, 20));
   ("final", (18, 45))].

Definition schedule_daily_reminders (job_queue : list Job) (user_id : Z)
  : list Job :=
  let current_jobs :=
    get_jobs_by_name job_queue ("morning_first_" +:+ pretty user_id) in
  let q0 :=
    fold_left (fun q job => schedule_removal job q) current_jobs job_queue in
  let q1 :=
    fold_left (fun q '(reminder_type, reminder_time) =>
                 run_daily q reminder_time [0; 1; 2; 3; 4] user_id
                   reminder_type
                   (reminder_type +:+ "_" +:+ pretty user_id +:+ "_weekday"))
              times_weekday q0 in
  fold_left (fun q '(reminder_type, reminder_time) =>
               run_daily q reminder_time [5; 6] user_id reminder_type
                 (reminder_type +:+ "_" +:+ pretty user_id +:+ "_weekend"))
            times_weekend q1.

(** The recurring triggers of a user that are in the queue. *)
Definition active_triggers (job_queue : list Job) (user_id : Z) : list Job :=
  filter (fun job => job_chat_id job = user_id) job_queue.

(** ** Vocabulary of the statements *)

(** The state [get_user_state] hands to its caller: the stored one, or a
    fresh one for an unknown user, after the rollover check. *)
Definition accessed (now : date) (user_id : Z) (w : World) : VitaminState :=
  reset_if_new_day (today now)
    (default (VitaminState_init (today now)) (user_states w !! user_id)).

(** The world [get_user_state] leaves behind. *)
Definition after_access (now : date) (user_id : Z) (w : World) : World :=
  let states := <[user_id := accessed now user_id w]> (user_states w) in
  {| user_states := states;
     registered_users := registered_users w;
     trace := trace w ++ [Saved states (registered_users w)] |}.

(** The same update carrying another text. *)
Definition with_text (update : Update) (text : pystr) : Update :=
  {| effective_user_id := effective_user_id update;
     message_chat_id := message_chat_id update;
     message_text := text |}.

Definition empty_world : World :=
  {| user_states := ∅; registered_users := ∅; trace := [] |}.

(** What [str.lower] and [str.strip] need of the character database:
    white space has no case, lower-casing produces no white space, and a
    lower-cased code point (the two small sigmas among them) is lower-cased
    already. *)
Class UnicodeLaws (ucd : UnicodeData) : Prop := {
  lower_of_space : forall c,
    isspace c = true -> to_lower_full ucd c = [c];
  lower_nonempty : forall c, to_lower_full ucd c <> [];
  lower_no_space : forall c d,
    isspace c = false -> In d (to_lower_full ucd c) -> isspace d = false;
  lower_stable : forall c d,
    In d (to_lower_full ucd c) ->
    d <> 0x3A3%N /\ to_lower_full ucd d = [d];
  sigma_stable :
    to_lower_full ucd 0x3C2%N = [0x3C2%N] /\
    to_lower_full ucd 0x3C3%N = [0x3C3%N];
  space_not_ignorable : forall c,
    isspace c = true -> is_case_ignorable ucd c = false;
  space_not_cased : forall c, isspace c = true -> is_cased ucd c = false
}.

(** ** The data file *)

(** The dict of one user in the data file, key by key ([None]: the key is
    missing); the values have the types [to_dict] writes. *)
Record StateDict := mkStateDict {
  d_morning_taken : option bool;
  d_lunch_taken : option bool;
  d_morning_reminder_count : option Z;
  d_lunch_reminder_count : option Z;
  d_last_reset : option string
}.

(** [VitaminState.to_dict] *)
Definition to_dict (self : VitaminState) : StateDict :=
  {| d_morning_taken := Some (morning_taken self);
     d_lunch_taken := Some (lunch_taken self);
     d_morning_reminder_count := Some (morning_reminder_count self);
     d_lunch_reminder_count := Some (lunch_reminder_count self);
     d_last_reset := Some (last_reset self) |}.

(** [VitaminState.from_dict], at a clock that reads [today]: every field
    is [data.get(key, default)]. *)
Definition from_dict (today : string) (data : StateDict) : VitaminState :=
  {| morning_taken := default false (d_morning_taken data);
     lunch_taken := default false (d_lunch_taken data);
     morning_reminder_count := default 0 (d_morning_reminder_count data);
     lunch_reminder_count := default 0 (d_lunch_reminder_count data);
     last_reset := default today (d_last_reset data) |}.

(** A value of the dict ['states']: the dict of a user, or any other JSON
    value (a list, a string, a number, [null]), which has no [get], so
    that [from_dict] raises on it. *)
Inductive state_json :=
| StateObject (data : StateDict)
| StateOther.

(** The value under ['states']: the key is missing, or it holds a dict
    (its items in file order), or it holds another JSON value, whose
    [items()] raises. *)
Inductive states_json :=
| StatesMissing
| StatesObject (items : list (string * state_json))
| StatesOther.

(** The value under ['registered_users']: the key is missing, or it holds
    a list of ints, or it holds a value [set] raises on ([null], a number,
    a list that holds a list or a dict). *)
Inductive users_json :=
| UsersMissing
| UsersList (ids : list Z)
| UsersUnusable.

(** The top-level dict of the data file.  Inside the dict of a user the
    values have the types [to_dict] writes, and the list of users holds
    ints: the program stores other values as they come, which the typed
    store of this development does not represent. *)
Record FileData := mkFileData {
  f_states : states_json;
  f_registered_users : users_json
}.

(** What [load_data] finds on disk: no file, a file that cannot be opened
    or parsed or whose top level is not a dict, or a parsed dict. *)
Inductive data_file :=
| NoFile
| Unreadable
| Contents (data : FileData).

(** The dict [save_data] builds and dumps: keys are [str(user_id)]. *)
Definition dump_data (states : gmap Z VitaminState) (users : gset Z)
  : FileData :=
  {| f_states :=
       StatesObject
         (map (fun '(user_id, state) =>
                 (pretty user_id, StateObject (to_dict state)))
              (map_to_list states));
     f_registered_users := UsersList (elements users) |}.

(** The data file after the writes of a trace, every write going through. *)
Definition file_after (file : data_file) (tr : list event) : data_file :=
  fold_left (fun f e =>
               match e with
               | Saved states users => Contents (dump_data states users)
               | _ => f
               end) tr file.

Inductive load_result :=
| NothingToLoad      (* the file does not exist *)
| Loaded             (* both globals replaced *)
| LoadFailed.        (* an exception was caught and logged *)

Section Loading.

(** [py_int s] is [int(s)], [None] when it raises [ValueError]. *)
Context (py_int : string -> option Z).

(** The dict comprehension
    [{int(user_id): VitaminState.from_dict(state_data) for ...}]; [None]
    when [int] or [from_dict] raises. *)
Fixpoint load_states (today : string) (items : list (string * state_json))
    (acc : gmap Z VitaminState) : option (gmap Z VitaminState) :=
  match items with
  | [] => Some acc
  | (user_id, state_data) :: rest =>
      match py_int user_id, state_data with
      | Some uid, StateObject data =>
          load_states today rest (<[uid := from_dict today data]> acc)
      | _, _ => None
      end
  end.

(** [load_data]: [user_states] is assigned as soon as the comprehension is
    through, before [set(...)] is tried on the list of users. *)
Definition load_data (now : date) (file : data_file) (w : World)
  : load_result * World :=
  match file with
  | NoFile => (NothingToLoad, w)
  | Unreadable => (LoadFailed, w)
  | Contents data =>
      match
        match f_states data with
        | StatesMissing => load_states (today now) [] ∅
        | StatesObject items => load_states (today now) items ∅
        | StatesOther => None
        end
      with
      | None => (LoadFailed, w)
      | Some states =>
          match f_registered_users data with
          | UsersUnusable =>
              (LoadFailed,
               {| user_states := states;
                  registered_users := registered_users w;
                  trace := trace w |})
          | UsersMissing =>
              (Loaded,
               {| user_states := states;
                  registered_users := list_to_set [];
                  trace := trace w |})
          | UsersList ids =>
              (Loaded,
               {| user_states := states;
                  registered_users := list_to_set ids;
                  trace := trace w |})
          end
      end
  end.

End Loading.

(** What the program needs of [int]: it reads back what [str] printed. *)
Class IntLaw (py_int : string -> option Z) : Prop :=
  int_of_str : forall z : Z, py_int (pretty z) = Some z.

(** An [int] for plain decimal numerals with an optional minus sign. *)
Definition digit_of (c : ascii) : option Z :=
  let n := Z.of_nat (nat_of_ascii c) in
  if (48 <=? n) && (n <=? 57) then Some (n - 48) else None.

Fixpoint parse_digits (acc : Z) (s : string) : option Z :=
  match s with
  | EmptyString => Some acc
  | String c rest =>
      match digit_of c with
      | Some d => parse_digits (acc * 10 + d) rest
      | None => None
      end
  end.

Definition parse_numeral (s : string) : option Z :=
  match s with
  | EmptyString => None
  | _ => parse_digits 0 s
  end.

Definition ascii_int (s : string) : option Z :=
  match s with
  | String "-" rest => Z.opp <$> parse_numeral rest
  | _ => parse_numeral s
  end.

(** ** The commands that show things, and registration *)

(** [time.strftime('%H:%M')] *)
Definition strftime_HM (t : Z * Z) : string :=
  zero_pad 2 (pretty t.1) +:+ ":" +:+ zero_pad 2 (pretty t.2).

(** [date.strftime('%d.%m.%Y')], for the years 1000 to 9999. *)
Definition strftime_dmY (d : date) : string :=
  zero_pad 2 (pretty (day d)) +:+ "." +:+ zero_pad 2 (pretty (month d))
  +:+ "." +:+ pretty (year d).

(** [schedule[key]]; [None] stands for [KeyError]. *)
Definition schedule_item (schedule : list (string * (Z * Z))) (key : string)
  : option (Z * Z) :=
  snd <$> find (fun item => String.eqb (fst item) key) schedule.

Definition DAY_TYPE (weekend : bool) : string :=
  if weekend then "выходные" else "будни".

Definition TEXT_START (user_name day_type : string)
    (morning_first lunch_first final : Z * Z) : string :=
  "Привет, " +:+ user_name +:+ "! 🌟" +:+ nl +:+ nl +:+
  "Я буду напоминать тебе о витаминах!" +:+ nl +:+ nl +:+
  "📅 Расписание на " +:+ day_type +:+ ":" +:+ nl +:+
  "• " +:+ strftime_HM morning_first +:+ " - утренние витамины" +:+ nl +:+
  "• " +:+ strftime_HM lunch_first +:+ " - обеденные витамины" +:+ nl +:+
  "• " +:+ strftime_HM final +:+ " - последнее напоминание" +:+ nl +:+ nl +:+
  "Команды:" +:+ nl +:+
  "/status - посмотреть статус" +:+ nl +:+
  "/reset - сбросить на сегодня" +:+ nl +:+
  "/schedule - показать расписание".

Definition TEXT_SCHEDULE (day_type : string)
    (morning_first morning_second lunch_first lunch_second final : Z * Z)
  : string :=
  "📅 Расписание на " +:+ day_type +:+ ":" +:+ nl +:+ nl +:+
  "⏰ Утренние витамины:" +:+ nl +:+
  "  • " +:+ strftime_HM morning_first +:+ " - первое напоминание" +:+ nl +:+
  "  • " +:+ strftime_HM morning_second +:+ " - повтор" +:+ nl +:+ nl +:+
  "⏰ Обеденные витамины:" +:+ nl +:+
  "  • " +:+ strftime_HM lunch_first +:+ " - первое напоминание" +:+ nl +:+
  "  • " +:+ strftime_HM lunch_second +:+ " - повтор" +:+ nl +:+ nl +:+
  "⏰ Финальное:" +:+ nl +:+
  "  • " +:+ strftime_HM final +:+ " - последний шанс! 😊".

Definition ICON (taken : bool) : string := if taken then "✅" else "❌".

Definition TEXT_ALL_TAKEN : string :=
  nl +:+ nl +:+ "🎉 Все витамины приняты! Молодец!".

Definition TEXT_STATUS (date_text : string) (state : VitaminState) : string :=
  ("Статус на сегодня (" +:+ date_text +:+ "):" +:+ nl +:+ nl +:+
   ICON (morning_taken state) +:+ " Утренние витамины" +:+ nl +:+
   ICON (lunch_taken state) +:+ " Обеденные витамины")
  +:+ (if morning_taken state && lunch_taken state then TEXT_ALL_TAKEN
       else "").

(** The application: the globals and the job queue. *)
Record App := mkApp {
  app_world : World;
  app_jobs : list Job
}.

Section Commands.

Context (now : date) (notifier : Z -> string -> bool).

Definition status (update : Update) : M unit :=
  let user_id := effective_user_id update in
  state ← get_user_state now user_id;
  reply_text notifier update (TEXT_STATUS (strftime_dmY now) state).

Definition schedule_info (update : Update) : M unit :=
  let schedule := get_schedule_times now in
  let day_type := DAY_TYPE (is_weekend now) in
  match schedule_item schedule "morning_first",
        schedule_item schedule "morning_second",
        schedule_item schedule "lunch_first",
        schedule_item schedule "lunch_second",
        schedule_item schedule "final" with
  | Some t1, Some t2, Some t3, Some t4, Some t5 =>
      reply_text notifier update (TEXT_SCHEDULE day_type t1 t2 t3 t4 t5)
  | _, _, _, _, _ => fun w => (Raised, w)
  end.

(** [registered_users.add(user_id)] *)
Definition register_user (user_id : Z) : M unit := fun w =>
  (Returned tt,
   {| user_states := user_states w;
      registered_users := {[ user_id ]} ∪ registered_users w;
      trace := trace w |}).

(** [start]; [user_name] is [update.effective_user.first_name]. *)
Definition start (update : Update) (user_name : string) (app : App)
  : outcome unit * App :=
  let user_id := effective_user_id update in
  let w1 := (get_user_state now user_id (app_world app)).2 in
  let app1 :=
    if decide (user_id ∈ registered_users w1) then
      {| app_world := w1; app_jobs := app_jobs app |}
    else
      {| app_world := ((register_user user_id;; save_data) w1).2;
         app_jobs := schedule_daily_reminders (app_jobs app) user_id |} in
  let day_type := DAY_TYPE (is_weekend now) in
  let schedule := get_schedule_times now in
  match schedule_item schedule "morning_first",
        schedule_item schedule "lunch_first",
        schedule_item schedule "final" with
  | Some t1, Some t3, Some t5 =>
      let r :=
        reply_text notifier update (TEXT_START user_name day_type t1 t3 t5)
          (app_world app1) in
      (r.1, {| app_world := r.2; app_jobs := app_jobs app1 |})
  | _, _, _ => (Raised, app1)
  end.

(** [post_init]: the file is loaded and every registered user gets the
    schedule, in the order the set is walked. *)
Definition post_init (py_int : string -> option Z) (file : data_file)
    (app : App) : load_result * App :=
  let r := load_data py_int now file (app_world app) in
  (r.1,
   {| app_world := r.2;
      app_jobs :=
        fold_left schedule_daily_reminders
                  (elements (registered_users r.2)) (app_jobs app) |}).

End Commands.

(** ** More vocabulary *)

(** Every registered user has the ten triggers of one install, nobody else
    has any. *)
Definition schedule_consistent (app : App) : Prop :=
  forall user_id : Z,
    active_triggers (app_jobs app) user_id
    = if decide (user_id ∈ registered_users (app_world app))
      then schedule_daily_reminders [] user_id
      else [].

(** The range the counters are meant to stay in. *)
Definition counters_in_range (state : VitaminState) : Prop :=
  0 <= morning_reminder_count state <= 2 /\
  0 <= lunch_reminder_count state <= 1.

(** The messages a trace attempted to send. *)
Definition sends (tr : list event) : list event :=
  List.filter (fun e => match e with SendMessage _ _ _ _ => true | _ => false end)
              tr.

(** * Properties *)

(** ** The calendar *)

Example saturday_2024_01_06 :
  toordinal (mkDate 2024 1 6) = 738891 /\ weekday (mkDate 2024 1 6) = 5 /\
  isoweekday (mkDate 2024 1 6) = 6 /\
  isoformat (mkDate 2024 1 6) = "2024-01-06".
Proof. vm_compute. repeat split. Qed.

Lemma weekday_isoweekday (d : date) : isoweekday d = weekday d + 1.
Proof.
  unfold isoweekday, weekday. generalize (toordinal d); intros n.
  destruct (Z.eqb_spec (n mod 7) 0); Z.div_mod_to_equations; lia.
Qed.

Lemma weekday_range (d : date) : 0 <= weekday d < 7.
Proof. unfold weekday. apply Z.mod_pos_bound. lia. Qed.

(** C8: [is_weekend] answers "weekend" exactly on the dates whose ISO
    weekday is 6 (Saturday) or 7 (Sunday), and "weekday" on the dates whose
    ISO weekday is 1 to 5. *)
Theorem is_weekend_iff_saturday_or_sunday (now : date) :
  (is_weekend now = true <-> isoweekday now = 6 \/ isoweekday now = 7) /\
  (is_weekend now = false <-> 1 <= isoweekday now <= 5).
Proof.
  unfold is_weekend. rewrite weekday_isoweekday.
  pose proof (weekday_range now) as Hr.
  destruct (Z.leb_spec 5 (weekday now)); split; split; intros; try lia;
    try reflexivity; try discriminate.
Qed.

(** ** Day rollover *)

Lemma reset_if_new_day_same (today : string) (st : VitaminState) :
  last_reset st = today -> reset_if_new_day today st = st.
Proof.
  intros <-. unfold reset_if_new_day. now rewrite String.eqb_refl.
Qed.

Lemma reset_if_new_day_last_reset (today : string) (st : VitaminState) :
  last_reset (reset_if_new_day today st) = today.
Proof.
  unfold reset_if_new_day.
  destruct (String.eqb_spec today (last_reset st)); simpl; congruence.
Qed.

Lemma reset_if_new_day_idempotent (today : string) (st : VitaminState) :
  reset_if_new_day today (reset_if_new_day today st)
  = reset_if_new_day today st.
Proof. apply reset_if_new_day_same, reset_if_new_day_last_reset. Qed.

(** ** The accessor *)

Ltac run_handler :=
  cbv [run mbind mret M_bind M_ret get_world put_user_states emit save_data
       modify_state log_error try_except send_message reply_text];
  cbn [user_states registered_users trace fst snd].

Lemma get_user_state_run (now : date) (user_id : Z) (w : World) :
  run (get_user_state now user_id) w
  = (Returned (accessed now user_id w), after_access now user_id w).
Proof.
  unfold get_user_state, after_access, accessed. run_handler.
  destruct (user_states w !! user_id); reflexivity.
Qed.

Lemma accessed_after_access (now : date) (user_id : Z) (w : World) :
  accessed now user_id (after_access now user_id w) = accessed now user_id w.
Proof.
  unfold accessed at 1. simpl. rewrite lookup_insert_eq. simpl.
  apply reset_if_new_day_idempotent.
Qed.

Lemma accessed_last_reset (now : date) (user_id : Z) (w : World) :
  last_reset (accessed now user_id w) = today now.
Proof. apply reset_if_new_day_last_reset. Qed.

(** C5: the rollover check applied twice with the same [today] is the
    rollover check applied once; so a second call of the accessor on the
    same date returns the state the first call returned and leaves the
    store as the first call left it: neither [last_reset] nor a flag or a
    counter changes. *)
Theorem rollover_idempotent (now : date) (user_id : Z) (w : World)
    (st : VitaminState) :
  reset_if_new_day (today now) (reset_if_new_day (today now) st)
  = reset_if_new_day (today now) st /\
  let first := run (get_user_state now user_id) w in
  let second := run (get_user_state now user_id) first.2 in
  second.1 = first.1 /\
  user_states second.2 = user_states first.2 /\
  registered_users second.2 = registered_users first.2 /\
  state_of user_id second.2 = state_of user_id first.2.
Proof.
  split; [apply reset_if_new_day_idempotent|].
  cbv zeta. rewrite !get_user_state_run. cbn [fst snd].
  rewrite accessed_after_access.
  assert (user_states (after_access now user_id (after_access now user_id w))
          = user_states (after_access now user_id w)) as Hs.
  { unfold after_access at 1. cbn [user_states].
    rewrite accessed_after_access. unfold after_access. cbn [user_states].
    apply insert_insert_eq. }
  unfold state_of. rewrite Hs. repeat split; reflexivity.
Qed.

(** C6: on a state whose [last_reset] is not today, the rollover check
    clears both flags, zeroes both counters and stamps today, whatever the
    fields held before. *)
Theorem rollover_on_new_day (today : string) (st : VitaminState) :
  last_reset st <> today ->
  reset_if_new_day today st
  = {| morning_taken := false; lunch_taken := false;
       morning_reminder_count := 0; lunch_reminder_count := 0;
       last_reset := today |}.
Proof.
  intros Hne. unfold reset_if_new_day.
  destruct (String.eqb_spec today (last_reset st)); [congruence|reflexivity].
Qed.

Lemma rollover_on_new_day_witness :
  reset_if_new_day "2024-01-08"
    {| morning_taken := true; lunch_taken := true;
       morning_reminder_count := 2; lunch_reminder_count := 1;
       last_reset := "2024-01-07" |}
  = {| morning_taken := false; lunch_taken := false;
       morning_reminder_count := 0; lunch_reminder_count := 0;
       last_reset := "2024-01-08" |}.
Proof. apply rollover_on_new_day. simpl. discriminate. Defined.

(** ** The reminder handler *)

Lemma get_user_state_eq (now : date) (user_id : Z) (w : World) :
  get_user_state now user_id w
  = (Returned (accessed now user_id w), after_access now user_id w).
Proof. apply get_user_state_run. Qed.

Lemma after_access_trace (now : date) (user_id : Z) (w : World) :
  trace (after_access now user_id w)
  = (trace w ++ [Saved (user_states (after_access now user_id w))
                       (registered_users w)])%list.
Proof. reflexivity. Qed.

Lemma after_access_registered (now : date) (user_id : Z) (w : World) :
  registered_users (after_access now user_id w) = registered_users w.
Proof. reflexivity. Qed.

Lemma after_access_states (now : date) (user_id : Z) (w : World) :
  user_states (after_access now user_id w)
  = <[user_id := accessed now user_id w]> (user_states w).
Proof. reflexivity. Qed.

Lemma send_vitamin_reminder_run (now : date) (notifier : Z -> string -> bool)
    (user_id : Z) (reminder_type : string) (w : World) :
  run (send_vitamin_reminder now notifier user_id reminder_type) w
  = try_except
      (reminder_branch notifier user_id reminder_type
         (accessed now user_id w);; save_data)
      (log_error user_id)
      (after_access now user_id w).
Proof.
  unfold run, send_vitamin_reminder.
  unfold mbind at 1, M_bind at 1. now rewrite get_user_state_eq.
Qed.

Ltac split_slot rt :=
  destruct (String.eqb rt "morning_first");
  [|destruct (String.eqb rt "morning_second");
    [|destruct (String.eqb rt "lunch_first");
      [|destruct (String.eqb rt "lunch_second");
        [|destruct (String.eqb rt "final")]]]].

Ltac split_state st :=
  destruct (morning_taken st), (lunch_taken st); cbn [negb andb].

(** The run of the reminder handler, trace and store. *)
Lemma reminder_run_shape
    (now : date) (notifier : Z -> string -> bool) (user_id : Z)
    (reminder_type : string) (w : World) :
  let st := accessed now user_id w in
  let w1 := after_access now user_id w in
  let res := run (send_vitamin_reminder now notifier user_id reminder_type) w in
  let counter_of_slot : VitaminState -> VitaminState :=
    if String.eqb reminder_type "morning_first"
    then set_morning_reminder_count 1
    else if String.eqb reminder_type "morning_second"
    then set_morning_reminder_count 2
    else if String.eqb reminder_type "lunch_first"
    then set_lunch_reminder_count 1
    else fun state => state in
  res.1 = Returned tt /\
  registered_users res.2 = registered_users w /\
  exists tail : list event,
    trace res.2
    = (trace w ++ Saved (user_states w1) (registered_users w) :: tail)%list /\
    ((exists sent,
        (sent = [] \/
         exists text kb, sent = [SendMessage user_id text kb true]) /\
        tail = (sent ++ [Saved (user_states res.2) (registered_users w)])%list)
     \/
     (exists text kb,
        notifier user_id text = false /\
        tail = [SendMessage user_id text kb false; LogError user_id] /\
        user_states res.2 = user_states w1 /\
        user_states w1 = <[user_id := st]> (user_states w) /\
        forall accepting : Z -> string -> bool,
          accepting user_id text = true ->
          user_states
            (run (send_vitamin_reminder now accepting user_id reminder_type)
                 w).2
          = <[user_id := counter_of_slot st]> (user_states w))).
Proof.
  cbv zeta.
  generalize (fun n' =>
                send_vitamin_reminder_run now n' user_id reminder_type w).
  rewrite send_vitamin_reminder_run.
  set (st := accessed now user_id w).
  unfold reminder_branch, missing_doses.
  split_slot reminder_type; split_state st; cbn [app]; intros Hother;
    unfold run in Hother;
    run_handler;
    repeat match goal with
    | |- context [notifier ?u ?t] =>
        let E := fresh "E" in destruct (notifier u t) eqn:E
    end;
    cbn [fst snd user_states registered_users trace];
    rewrite ?after_access_trace, ?after_access_registered;
    (split; [reflexivity|split; [reflexivity|]]);
    rewrite <- ?app_assoc; cbn [app];
    eexists; (split; [reflexivity|]);
    first
      [ left; exists []; split; [left; reflexivity|reflexivity]
      | left; eexists [_]; split; [right; eauto|reflexivity]
      | right; do 2 eexists; split; [eassumption|];
        split; [reflexivity|]; split; [reflexivity|];
        split; [apply after_access_states|];
        intros accepting Hacc; rewrite Hother; run_handler; rewrite Hacc;
        cbn [fst snd user_states registered_users trace];
        rewrite after_access_states, ?alter_insert_eq; reflexivity ].
Qed.

(** C2, as the code has it: the accessor persists the state before the slot
    is looked at; the handler itself never fails; when nothing is sent or
    the send is accepted, the state is persisted once more after the
    branch; when the send fails, the failure is logged, nothing is sent a
    second time, the counter assignment that follows the send is not
    reached, the closing persist is skipped, and the store is the one the
    accessor left, whereas a notifier that accepts the same message leaves
    the user's record with the counter of the slot set ([morning_first]:
    1, [morning_second]: 2, [lunch_first]: 1, no counter for the other
    slots), so that the two stores agree exactly when that assignment
    changes nothing. *)
Theorem reminder_persists_and_contains_failure
    (now : date) (notifier : Z -> string -> bool) (user_id : Z)
    (reminder_type : string) (w : World) :
  let st := accessed now user_id w in
  let w1 := after_access now user_id w in
  let res := run (send_vitamin_reminder now notifier user_id reminder_type) w in
  let counter_of_slot : VitaminState -> VitaminState :=
    if String.eqb reminder_type "morning_first"
    then set_morning_reminder_count 1
    else if String.eqb reminder_type "morning_second"
    then set_morning_reminder_count 2
    else if String.eqb reminder_type "lunch_first"
    then set_lunch_reminder_count 1
    else fun state => state in
  res.1 = Returned tt /\
  registered_users res.2 = registered_users w /\
  exists tail : list event,
    trace res.2
    = (trace w ++ Saved (user_states w1) (registered_users w) :: tail)%list /\
    ((exists sent,
        (sent = [] \/
         exists text kb, sent = [SendMessage user_id text kb true]) /\
        tail = (sent ++ [Saved (user_states res.2) (registered_users w)])%list)
     \/
     (exists text kb,
        notifier user_id text = false /\
        tail = [SendMessage user_id text kb false; LogError user_id] /\
        user_states res.2 = user_states w1 /\
        user_states w1 = <[user_id := st]> (user_states w) /\
        forall accepting : Z -> string -> bool,
          accepting user_id text = true ->
          user_states
            (run (send_vitamin_reminder now accepting user_id reminder_type)
                 w).2
          = <[user_id := counter_of_slot st]> (user_states w) /\
          (user_states
             (run (send_vitamin_reminder now accepting user_id reminder_type)
                  w).2
           = user_states res.2 <-> counter_of_slot st = st))).
Proof.
  cbv zeta.
  destruct (reminder_run_shape now notifier user_id reminder_type w)
    as (Hret & Hreg & tail & Htr & Hcases).
  split; [exact Hret|]. split; [exact Hreg|].
  exists tail. split; [exact Htr|].
  destruct Hcases as [Hok|(text & kb & Hno & Htail & Hsame & Hw1 & Hacc)];
    [now left|right].
  exists text, kb. repeat (split; [assumption|]).
  intros accepting Ha. specialize (Hacc accepting Ha).
  split; [exact Hacc|].
  rewrite Hacc, Hsame, Hw1. split.
  - intros Heq. apply (f_equal (fun m => m !! user_id)) in Heq.
    rewrite !lookup_insert_eq in Heq. now injection Heq.
  - now intros ->.
Qed.

Lemma reminder_persists_and_contains_failure_witness :
  let now := mkDate 2024 1 8 in
  user_states
    (run (send_vitamin_reminder now (fun _ _ => true) 7 "morning_first")
         empty_world).2
  = <[7 := set_morning_reminder_count 1 (accessed now 7 empty_world)]>
      (user_states empty_world).
Proof.
  cbv zeta.
  destruct (reminder_persists_and_contains_failure (mkDate 2024 1 8)
              (fun _ _ => false) 7 "morning_first" empty_world)
    as (_ & _ & tail & Htr &
        [(sent & _ & Ht)|(text & kb & _ & _ & _ & _ & Hacc)]).
  - exfalso. subst tail.
    apply (f_equal last) in Htr.
    rewrite app_comm_cons, app_assoc, last_snoc in Htr.
    vm_compute in Htr. discriminate Htr.
  - exact (proj1 (Hacc (fun _ _ => true) eq_refl)).
Defined.

(** C2, counterexample: on Monday 2024-01-08 [morning_first] fires for a
    user who has taken nothing.  When the send fails the counter stays 0,
    when it succeeds the counter is 1; and after the failed send the last
    thing the handler did is the log entry, not a persist. *)
Lemma failed_send_differs_from_successful_send :
  let now := mkDate 2024 1 8 in
  let failed :=
    run (send_vitamin_reminder now (fun _ _ => false) 7 "morning_first")
        empty_world in
  let sent :=
    run (send_vitamin_reminder now (fun _ _ => true) 7 "morning_first")
        empty_world in
  state_of 7 failed.2 <> state_of 7 sent.2 /\
  morning_reminder_count <$> state_of 7 failed.2 = Some 0 /\
  morning_reminder_count <$> state_of 7 sent.2 = Some 1 /\
  last (trace failed.2) = Some (LogError 7).
Proof.
  cbv zeta. repeat split; try (vm_compute; reflexivity).
  vm_compute. discriminate.
Qed.

Lemma state_of_alter_after_access (now : date) (user_id : Z) (w : World)
    (f : VitaminState -> VitaminState) :
  alter f user_id (user_states (after_access now user_id w)) !! user_id
  = Some (f (accessed now user_id w)).
Proof.
  rewrite after_access_states, lookup_alter_eq, lookup_insert_eq.
  reflexivity.
Qed.

Lemma state_of_after_access (now : date) (user_id : Z) (w : World) :
  user_states (after_access now user_id w) !! user_id
  = Some (accessed now user_id w).
Proof. rewrite after_access_states. apply lookup_insert_eq. Qed.

(** C3, as the code has it: when [lunch_first] fires the lunch counter
    becomes 1 on every path on which no send fails, among them the path
    where lunch is taken already and nothing is sent; when [morning_first]
    or [morning_second] fires the morning counter becomes 1 resp. 2 only
    where the morning dose is not taken, and there once the send went
    through.  On a failed send the state stays as it was. *)
Theorem counter_updates_of_first_reminders
    (now : date) (notifier : Z -> string -> bool) (user_id : Z) (w : World) :
  let st := accessed now user_id w in
  let after reminder_type :=
    state_of user_id
      (run (send_vitamin_reminder now notifier user_id reminder_type) w).2 in
  after "lunch_first"
  = Some (if lunch_taken st then set_lunch_reminder_count 1 st
          else if notifier user_id
                    (if morning_taken st then TEXT_LUNCH_FIRST
                     else TEXT_LUNCH_FIRST_BOTH)
               then set_lunch_reminder_count 1 st
               else st) /\
  after "morning_first"
  = Some (if morning_taken st then st
          else if notifier user_id TEXT_MORNING_FIRST
               then set_morning_reminder_count 1 st
               else st) /\
  after "morning_second"
  = Some (if morning_taken st then st
          else if notifier user_id TEXT_MORNING_SECOND
               then set_morning_reminder_count 2 st
               else st).
Proof.
  cbv beta zeta. rewrite !send_vitamin_reminder_run.
  set (st := accessed now user_id w).
  unfold reminder_branch, state_of. cbn [String.eqb Ascii.eqb Bool.eqb].
  split_state st; run_handler;
    repeat match goal with
    | |- context [notifier ?u ?t] => destruct (notifier u t)
    end;
    cbn [fst snd user_states registered_users trace];
    rewrite ?state_of_alter_after_access, ?state_of_after_access;
    repeat split; reflexivity.
Qed.

(** C3, counterexample: [lunch_first] fires for a user who has taken
    nothing and the send fails; the lunch counter is still 0. *)
Lemma lunch_first_failed_send_leaves_counter :
  let res :=
    run (send_vitamin_reminder (mkDate 2024 1 8) (fun _ _ => false) 7
           "lunch_first") empty_world in
  lunch_reminder_count <$> state_of 7 res.2 = Some 0 /\
  lunch_reminder_count <$> state_of 7 res.2 <> Some 1.
Proof. cbv zeta. split; vm_compute; [reflexivity|discriminate]. Qed.

(** ** The final reminder *)

(** C4: when [final] fires with both doses taken, the congratulation is
    sent and no dose is named (the list of names is empty and the text
    holds neither name); otherwise the text sent is the last call with
    the names of the doses not taken, joined with the word for "and":
    the morning name alone, the lunch name alone, or both with the word
    between them.  A dose is named exactly when it is not taken; with the
    morning dose open and the lunch dose taken the names are exactly the
    morning one.  Exactly one message is attempted.  The texts are
    written out as the source has them. *)
Theorem final_reminder_message
    (now : date) (notifier : Z -> string -> bool) (user_id : Z) (w : World) :
  let st := accessed now user_id w in
  let w1 := after_access now user_id w in
  let res := run (send_vitamin_reminder now notifier user_id "final") w in
  let all_taken := morning_taken st && lunch_taken st in
  let n := String "010" "" in
  let last_call names :=
    "🚨 Последнее напоминание на сегодня! 🚨" +:+ n +:+ n +:+
    "Не забыты " +:+ names +:+ " витамины!" +:+ n +:+ n +:+
    "Успеваешь принять?" in
  let text :=
    match morning_taken st, lunch_taken st with
    | true, true => "🎉 Отлично! Сегодня все витамины приняты! Молодец! 💪✨"
    | false, true => last_call "утренние 🌅"
    | true, false => last_call "обеденные 🍽"
    | false, false => last_call "утренние 🌅 и обеденные 🍽"
    end in
  trace res.2
  = (trace w1 ++
     SendMessage user_id text (negb all_taken) (notifier user_id text) ::
     (if notifier user_id text
      then [Saved (user_states w1) (registered_users w)]
      else [LogError user_id]))%list /\
  text = (if all_taken then TEXT_CONGRATULATION
          else TEXT_FINAL (join " и " (missing_doses st))) /\
  missing_doses st
  = ((if morning_taken st then [] else ["утренние 🌅"]) ++
     (if lunch_taken st then [] else ["обеденные 🍽"]))%list /\
  (index 0 "утренние" text = None <-> morning_taken st = true) /\
  (index 0 "обеденные" text = None <-> lunch_taken st = true) /\
  (index 0 " и " text = None <->
   morning_taken st = true \/ lunch_taken st = true) /\
  (morning_taken st = true -> lunch_taken st = true ->
   text = TEXT_CONGRATULATION /\ missing_doses st = [] /\
   index 0 "утренние" TEXT_CONGRATULATION = None /\
   index 0 "обеденные" TEXT_CONGRATULATION = None) /\
  (morning_taken st = false -> lunch_taken st = true ->
   text = last_call "утренние 🌅" /\ text = TEXT_FINAL NAME_MORNING /\
   missing_doses st = ["утренние 🌅"] /\
   missing_doses st = [NAME_MORNING]).
Proof.
  cbv zeta.
  set (st := accessed now user_id w).
  set (text := match morning_taken st, lunch_taken st with
               | true, true => _ | true, false => _
               | false, true => _ | false, false => _ end).
  assert (Htext : text = if morning_taken st && lunch_taken st
                         then TEXT_CONGRATULATION
                         else TEXT_FINAL (join " и " (missing_doses st))).
  { unfold text, missing_doses.
    destruct (morning_taken st), (lunch_taken st); vm_compute; reflexivity. }
  split.
  { rewrite Htext. clear text Htext.
    rewrite send_vitamin_reminder_run. fold st.
    unfold reminder_branch, missing_doses.
    cbn [String.eqb Ascii.eqb Bool.eqb].
    split_state st; cbn [app]; run_handler;
      repeat match goal with
      | |- context [notifier ?u ?t] => destruct (notifier u t)
      end;
      cbn [fst snd user_states registered_users trace];
      rewrite ?after_access_registered, <- ?app_assoc; reflexivity. }
  split; [exact Htext|].
  clear Htext. subst text. unfold missing_doses. clearbody st.
  destruct (morning_taken st), (lunch_taken st); vm_compute;
    repeat apply conj; intros;
    first [reflexivity | discriminate | now left | now right
          | repeat apply conj; reflexivity
          | match goal with H : _ \/ _ |- _ => destruct H; discriminate end].
Qed.

Lemma final_reminder_message_witness :
  let st := {| morning_taken := false; lunch_taken := true;
               morning_reminder_count := 2; lunch_reminder_count := 1;
               last_reset := "2024-01-08" |} in
  let w := {| user_states := {[ 7 := st ]}; registered_users := {[ 7 ]};
              trace := [] |} in
  missing_doses (accessed (mkDate 2024 1 8) 7 w) = ["утренние 🌅"].
Proof.
  cbv zeta.
  refine (proj1 (proj2 (proj2
    (proj2 (proj2 (proj2 (proj2 (proj2 (proj2 (proj2
      (final_reminder_message (mkDate 2024 1 8) (fun _ _ => true) 7 _)))))))
      _ _)))); vm_compute; reflexivity.
Defined.

(** ** Replies and the reset command *)

Lemma handler_after_access {A} (now : date) (user_id : Z)
    (k : VitaminState -> M A) (w : World) :
  (get_user_state now user_id ≫= k) w
  = k (accessed now user_id w) (after_access now user_id w).
Proof. unfold mbind, M_bind. now rewrite get_user_state_eq. Qed.

(** C7: on the state the accessor returns, a reply that normalises to the
    affirmative word records the morning dose if it is open (and leaves the
    lunch flag and everything else alone), else records the lunch dose if
    that is open, else changes nothing and answers that all is taken; a
    reply that normalises to the negative word, and any other text, change
    nothing. *)
Theorem reply_acceptance_machine
    (ucd : UnicodeData) (now : date) (notifier : Z -> string -> bool)
    (update : Update) (w : World) :
  let user_id := effective_user_id update in
  let st := accessed now user_id w in
  let w1 := after_access now user_id w in
  let text := strip (lower ucd (message_text update)) in
  let res := run (handle_response ucd now notifier update) w in
  let replied t :=
    last (trace res.2)
    = Some (SendMessage (message_chat_id update) t false
              (notifier (message_chat_id update) t)) in
  (text = py "да" -> morning_taken st = false ->
   user_states res.2 = <[user_id := set_morning_taken true st]> (user_states w)
   /\ state_of user_id res.2
      = Some {| morning_taken := true;
                lunch_taken := lunch_taken st;
                morning_reminder_count := morning_reminder_count st;
                lunch_reminder_count := lunch_reminder_count st;
                last_reset := last_reset st |}
   /\ replied TEXT_MORNING_ACCEPTED) /\
  (text = py "да" -> morning_taken st = true -> lunch_taken st = false ->
   user_states res.2 = <[user_id := set_lunch_taken true st]> (user_states w)
   /\ state_of user_id res.2
      = Some {| morning_taken := true;
                lunch_taken := true;
                morning_reminder_count := morning_reminder_count st;
                lunch_reminder_count := lunch_reminder_count st;
                last_reset := last_reset st |}
   /\ replied TEXT_LUNCH_ACCEPTED) /\
  (text = py "да" -> morning_taken st = true -> lunch_taken st = true ->
   user_states res.2 = user_states w1 /\
   state_of user_id res.2 = Some st /\
   replied TEXT_ALREADY_COMPLETE) /\
  (text = py "нет" ->
   user_states res.2 = user_states w1 /\
   state_of user_id res.2 = Some st /\
   replied TEXT_REMIND_LATER) /\
  (text <> py "да" -> text <> py "нет" ->
   user_states res.2 = user_states w1 /\
   state_of user_id res.2 = Some st /\
   replied TEXT_HELP).
Proof.
  cbv beta zeta. unfold run, handle_response. cbv zeta.
  rewrite handler_after_access.
  set (user_id := effective_user_id update).
  set (st := accessed now user_id w).
  set (text := strip (lower ucd (message_text update))).
  assert (py "да" <> py "нет") as Hne by (vm_compute; discriminate).
  unfold state_of.
  repeat split; intros;
    repeat match goal with
    | H : text = _ |- _ => rewrite H
    | H : morning_taken st = _ |- _ => rewrite H
    | H : lunch_taken st = _ |- _ => rewrite H
    end;
    rewrite ?bool_decide_eq_true_2 by congruence;
    rewrite ?bool_decide_eq_false_2 by congruence;
    rewrite ?bool_decide_eq_true_2 by congruence;
    cbn [negb]; run_handler;
    rewrite ?last_snoc;
    rewrite ?after_access_states, ?alter_insert_eq, ?lookup_insert_eq;
    try reflexivity.
  all: change (accessed now user_id w) with st;
    unfold set_lunch_taken, set_morning_taken; congruence.
Qed.

Lemma reply_acceptance_machine_witness :
  let update := {| effective_user_id := 7; message_chat_id := 7;
                   message_text := py "  ДА " |} in
  let res :=
    run (handle_response small_ucd (mkDate 2024 1 8) (fun _ _ => true) update)
        empty_world in
  state_of 7 res.2
  = Some {| morning_taken := true; lunch_taken := false;
            morning_reminder_count := 0; lunch_reminder_count := 0;
            last_reset := "2024-01-08" |}.
Proof.
  cbv zeta.
  eapply (reply_acceptance_machine small_ucd (mkDate 2024 1 8)
            (fun _ _ => true)
            {| effective_user_id := 7; message_chat_id := 7;
               message_text := py "  ДА " |} empty_world);
    vm_compute; reflexivity.
Defined.

(** Three affirmative replies in a row on one day, written in three
    different ways: the first records the morning dose, the second the
    lunch dose, the third changes nothing and is told that all is taken. *)
Example three_affirmative_replies :
  let h text :=
    handle_response small_ucd (mkDate 2024 1 8) (fun _ _ => true)
      {| effective_user_id := 7; message_chat_id := 7;
         message_text := py text |} in
  let w1 := (run (h "Да") empty_world).2 in
  let w2 := (run (h " ДА") w1).2 in
  let w3 := (run (h "да ") w2).2 in
  (morning_taken <$> state_of 7 w1, lunch_taken <$> state_of 7 w1)
  = (Some true, Some false) /\
  (morning_taken <$> state_of 7 w2, lunch_taken <$> state_of 7 w2)
  = (Some true, Some true) /\
  user_states w3 = user_states w2 /\
  last (trace w3) = Some (SendMessage 7 TEXT_ALREADY_COMPLETE false true).
Proof. vm_compute. repeat split. Qed.

(** C9, as the code has it: the four assignments of [/reset] clear both
    flags and zero both counters of the state the accessor returns and do
    not touch its [last_reset]; but the accessor, which [/reset] goes
    through like every handler, has run the day rollover on that state, so
    the date it carries is always today's.  After [/reset] the user's
    record is therefore the cleared record dated today, no other user's
    record changes, and the stored date survives the command exactly when
    it was today's already: on a record of an earlier day, and on a first
    contact, [/reset] does advance the date. *)
Theorem reset_command_clears_and_stamps_today
    (now : date) (notifier : Z -> string -> bool) (update : Update)
    (w : World) :
  let user_id := effective_user_id update in
  let st := accessed now user_id w in
  let res := run (reset now notifier update) w in
  let cleared date :=
    {| morning_taken := false; lunch_taken := false;
       morning_reminder_count := 0; lunch_reminder_count := 0;
       last_reset := date |} in
  state_of user_id res.2 = Some (cleared (last_reset st)) /\
  last_reset st = today now /\
  user_states res.2 = <[user_id := cleared (today now)]> (user_states w) /\
  (forall other, other <> user_id ->
     state_of other res.2 = state_of other w) /\
  (forall st0, state_of user_id w = Some st0 ->
     (last_reset <$> state_of user_id res.2 = Some (last_reset st0)
      <-> last_reset st0 = today now)) /\
  (state_of user_id w = None ->
   state_of user_id res.2 = Some (cleared (today now))).
Proof.
  cbv beta zeta. unfold run, reset. cbv zeta.
  rewrite handler_after_access.
  set (user_id := effective_user_id update).
  run_handler. unfold state_of. cbn [user_states].
  rewrite after_access_states, !alter_insert_eq.
  rewrite lookup_insert_eq.
  pose proof (accessed_last_reset now user_id w) as Hday.
  unfold set_lunch_reminder_count, set_morning_reminder_count,
    set_lunch_taken, set_morning_taken.
  cbn [morning_taken lunch_taken morning_reminder_count
       lunch_reminder_count last_reset].
  split; [reflexivity|]. split; [exact Hday|].
  rewrite Hday.
  split; [reflexivity|].
  split; [intros other Hother; now rewrite lookup_insert_ne|].
  split.
  - intros st0 _. cbn. split; congruence.
  - intros _. reflexivity.
Qed.

Lemma reset_command_clears_and_stamps_today_witness :
  let st0 := {| morning_taken := true; lunch_taken := true;
                morning_reminder_count := 2; lunch_reminder_count := 1;
                last_reset := "2024-01-08" |} in
  let w := {| user_states := {[ 7 := st0 ]}; registered_users := {[ 7; 8 ]};
              trace := [] |} in
  let update := {| effective_user_id := 7; message_chat_id := 7;
                   message_text := py "/reset" |} in
  let res := run (reset (mkDate 2024 1 8) (fun _ _ => true) update) w in
  last_reset <$> state_of 7 res.2 = Some "2024-01-08" /\
  state_of 8 res.2 = None.
Proof.
  cbv zeta.
  pose (H := reset_command_clears_and_stamps_today (mkDate 2024 1 8)
               (fun _ _ => true)
               {| effective_user_id := 7; message_chat_id := 7;
                  message_text := py "/reset" |}
               {| user_states :=
                    {[ 7 := {| morning_taken := true; lunch_taken := true;
                               morning_reminder_count := 2;
                               lunch_reminder_count := 1;
                               last_reset := "2024-01-08" |} ]};
                  registered_users := {[ 7; 8 ]}; trace := [] |}).
  split.
  - refine (proj2 (proj1 (proj2 (proj2 (proj2 (proj2 H))))
                     {| morning_taken := true; lunch_taken := true;
                        morning_reminder_count := 2;
                        lunch_reminder_count := 1;
                        last_reset := "2024-01-08" |} _) _);
      vm_compute; reflexivity.
  - refine (eq_trans (proj1 (proj2 (proj2 (proj2 H))) 8 _) _);
      [vm_compute; discriminate | vm_compute; reflexivity].
Defined.

(** C9, counterexample: a record stamped 2023-12-31 with both doses taken;
    [/reset] arrives on 2024-01-08.  The record left behind carries
    2024-01-08: the command went through the day rollover and the date
    advanced. *)
Lemma reset_command_advances_stale_date :
  let st0 := {| morning_taken := true; lunch_taken := true;
                morning_reminder_count := 2; lunch_reminder_count := 1;
                last_reset := "2023-12-31" |} in
  let w := {| user_states := {[ 7 := st0 ]}; registered_users := {[ 7 ]};
              trace := [] |} in
  let update := {| effective_user_id := 7; message_chat_id := 7;
                   message_text := py "/reset" |} in
  let res := run (reset (mkDate 2024 1 8) (fun _ _ => true) update) w in
  state_of 7 w = Some st0 /\
  last_reset <$> state_of 7 res.2 = Some "2024-01-08" /\
  last_reset <$> state_of 7 res.2 <> Some (last_reset st0).
Proof.
  cbv zeta. repeat split; try (vm_compute; reflexivity).
  vm_compute. discriminate.
Qed.

(** ** Installing the schedule *)

Lemma append_is_prefix_nil (s t : string) : s +:+ t = s -> t = "".
Proof.
  induction s as [|a s IH]; cbn; [tauto|].
  intros H. injection H as H. auto.
Qed.

(** No job of the schedule carries the name the removal step looks for. *)
Lemma installed_name_not_searched (user_id : Z) (reminder_type suffix : string) :
  In reminder_type
     ["morning_first"; "morning_second"; "lunch_first"; "lunch_second";
      "final"] ->
  suffix <> "" ->
  reminder_type +:+ "_" +:+ pretty user_id +:+ suffix
  <> "morning_first_" +:+ pretty user_id.
Proof.
  intros Hin Hsuf Heq. cbn in Hin.
  destruct Hin as [<-|[<-|[<-|[<-|[<-|[]]]]]]; cbn in Heq;
    try discriminate Heq.
  simplify_eq. now apply append_is_prefix_nil in Heq.
Qed.

Lemma get_jobs_by_name_none (job_queue : list Job) (name : string) :
  Forall (fun job => job_name job <> name) job_queue ->
  get_jobs_by_name job_queue name = [].
Proof.
  unfold get_jobs_by_name. induction 1 as [|j q Hj _ IH]; [reflexivity|].
  rewrite filter_cons_False by assumption. exact IH.
Qed.

Lemma schedule_daily_reminders_appends (job_queue : list Job) (user_id : Z) :
  Forall (fun job => job_name job <> "morning_first_" +:+ pretty user_id)
         job_queue ->
  schedule_daily_reminders job_queue user_id
  = (job_queue ++ schedule_daily_reminders [] user_id)%list.
Proof.
  intros Hq. unfold schedule_daily_reminders.
  rewrite (get_jobs_by_name_none job_queue) by assumption.
  cbn [get_jobs_by_name filter list_filter fold_left times_weekday
       times_weekend run_daily app].
  now rewrite <- !app_assoc.
Qed.

Lemma installed_names (user_id : Z) :
  Forall (fun job => job_name job <> "morning_first_" +:+ pretty user_id)
         (schedule_daily_reminders [] user_id).
Proof.
  unfold schedule_daily_reminders.
  cbn [get_jobs_by_name filter list_filter fold_left times_weekday
       times_weekend run_daily app].
  repeat constructor; cbn [job_name];
    apply installed_name_not_searched; cbn; try discriminate; tauto.
Qed.

Lemma installed_all_active (user_id : Z) :
  active_triggers (schedule_daily_reminders [] user_id) user_id
  = schedule_daily_reminders [] user_id.
Proof.
  unfold schedule_daily_reminders, active_triggers.
  cbn [get_jobs_by_name filter list_filter fold_left times_weekday
       times_weekend run_daily app job_chat_id].
  rewrite !decide_True by reflexivity. reflexivity.
Qed.

Lemma installed_length (user_id : Z) :
  length (schedule_daily_reminders [] user_id) = 10%nat.
Proof. reflexivity. Qed.

(** C1, as the code behaves: the removal step looks for a job named
    [morning_first_<user_id>], a name no installed job has, so it removes
    nothing: the second install puts its ten triggers next to the ten of
    the first, and the user has twenty. *)
Theorem second_install_duplicates_triggers (user_id : Z) :
  let once := schedule_daily_reminders [] user_id in
  let twice := schedule_daily_reminders once user_id in
  length (active_triggers once user_id) = 10%nat /\
  get_jobs_by_name once ("morning_first_" +:+ pretty user_id) = [] /\
  twice = (once ++ once)%list /\
  length (active_triggers twice user_id) = 20%nat.
Proof.
  cbv zeta. pose proof (installed_names user_id) as Hn.
  rewrite installed_all_active, installed_length.
  rewrite (get_jobs_by_name_none _ _ Hn).
  rewrite (schedule_daily_reminders_appends _ _ Hn).
  repeat split.
  unfold active_triggers. rewrite filter_app, length_app.
  fold (active_triggers (schedule_daily_reminders [] user_id) user_id).
  now rewrite installed_all_active, installed_length.
Qed.

Example install_twice_for_user_42 :
  map job_name (schedule_daily_reminders [] 42)
  = ["morning_first_42_weekday"; "morning_second_42_weekday";
     "lunch_first_42_weekday"; "lunch_second_42_weekday"; "final_42_weekday";
     "morning_first_42_weekend"; "morning_second_42_weekend";
     "lunch_first_42_weekend"; "lunch_second_42_weekend"; "final_42_weekend"]
  /\ length (active_triggers
               (schedule_daily_reminders (schedule_daily_reminders [] 42) 42)
               42) = 20%nat.
Proof. vm_compute. split; reflexivity. Qed.

(** ** Normalising a reply: [str.lower] and [str.strip] *)

Example literals_as_code_points :
  py "да" = [0x434; 0x430]%N /\ py "нет" = [0x43D; 0x435; 0x442]%N /\
  py " ДА" = [0x20; 0x414; 0x410]%N.
Proof. vm_compute. repeat split. Qed.

Example lower_and_strip_on_samples :
  lower small_ucd (py "НеТ") = py "нет" /\
  strip (py "  да " ++ [0x0A]%N) = py "да" /\
  lower small_ucd (py "aΣ bΣ' Σ") = py "aς bς' σ".
Proof. vm_compute. repeat split. Qed.

Abbreviation spaces := (Forall (fun c => isspace c = true)).

Section Dropwhile.
Context {A : Type} (p : A -> bool).

Lemma dropwhile_skip (w l : list A) :
  Forall (fun x => p x = true) w ->
  dropwhile p (w ++ l)%list = dropwhile p l.
Proof. induction 1 as [|x w Hx _ IH]; cbn; [|rewrite Hx]; auto. Qed.

Lemma dropwhile_split (l : list A) :
  exists w, l = (w ++ dropwhile p l)%list /\ Forall (fun x => p x = true) w.
Proof.
  induction l as [|x l (w & Hl & Hw)]; [now exists []|].
  cbn. destruct (p x) eqn:Hx.
  - exists (x :: w). split; [cbn; congruence|now constructor].
  - now exists [].
Qed.

Lemma dropwhile_stop (x : A) (l : list A) :
  p x = false -> dropwhile p (x :: l) = x :: l.
Proof. cbn. now intros ->. Qed.

Lemma dropwhile_fixed (l : list A) :
  dropwhile p l = l -> l = [] \/ exists x l', l = x :: l' /\ p x = false.
Proof.
  destruct l as [|x l]; [now left|]. cbn. destruct (p x) eqn:Hx.
  - intros H. exfalso.
    destruct (dropwhile_split l) as (w & Hl & _).
    apply (f_equal (@length A)) in H, Hl.
    rewrite length_app in Hl. cbn in H. lia.
  - right. eauto.
Qed.

Lemma dropwhile_idempotent (l : list A) :
  dropwhile p (dropwhile p l) = dropwhile p l.
Proof.
  induction l as [|x l IH]; [reflexivity|].
  cbn. destruct (p x) eqn:Hx; [exact IH|]. cbn. now rewrite Hx.
Qed.

End Dropwhile.

(** A string is trimmed when it neither starts nor ends with white
    space. *)
Lemma strip_of_padded (w1 x w2 : pystr) :
  spaces w1 -> spaces w2 ->
  lstrip x = x -> rstrip x = x ->
  strip (w1 ++ x ++ w2)%list = x.
Proof.
  intros H1 H2 Hl Hr. unfold strip, lstrip, rstrip in *.
  rewrite dropwhile_skip by assumption.
  destruct (dropwhile_fixed _ _ Hl) as [->|(c & x' & -> & Hc)].
  - cbn [app]. rewrite <- (app_nil_r w2), dropwhile_skip by assumption.
    reflexivity.
  - cbn [app]. rewrite dropwhile_stop by assumption.
    change (c :: (x' ++ w2)%list) with ((c :: x') ++ w2)%list.
    rewrite rev_app_distr, dropwhile_skip; [exact Hr|].
    now apply Forall_rev.
Qed.

Lemma strip_decompose (s : pystr) :
  exists w1 w2,
    s = (w1 ++ strip s ++ w2)%list /\ spaces w1 /\ spaces w2 /\
    lstrip (strip s) = strip s /\ rstrip (strip s) = strip s.
Proof.
  destruct (dropwhile_split isspace s) as (w1 & Hs & Hw1).
  destruct (dropwhile_split isspace (rev (lstrip s))) as (w2 & Hr & Hw2).
  fold (lstrip s) in Hs.
  assert (lstrip s = (strip s ++ rev w2)%list) as Hy.
  { unfold strip, rstrip. rewrite <- rev_app_distr, <- Hr.
    now rewrite rev_involutive. }
  assert (rstrip (strip s) = strip s) as Hrr.
  { unfold strip, rstrip. rewrite rev_involutive.
    now rewrite dropwhile_idempotent. }
  exists w1, (rev w2). repeat split; auto.
  - now rewrite <- Hy.
  - now apply Forall_rev.
  - assert (lstrip (lstrip s) = lstrip s) as Hll
      by apply dropwhile_idempotent.
    rewrite Hy in Hll. unfold lstrip in *.
    destruct (strip s) as [|c x'] eqn:Hx; [reflexivity|].
    cbn [app] in Hll.
    destruct (isspace c) eqn:Hc; [|now apply dropwhile_stop].
    exfalso. cbn in Hll. rewrite Hc in Hll.
    remember (x' ++ rev w2)%list as y.
    destruct (dropwhile_split isspace y) as (w & Hl & _).
    apply (f_equal (@length N)) in Hll, Hl.
    rewrite length_app in Hl. cbn in Hll. lia.
Qed.

Lemma strip_idempotent (s : pystr) : strip (strip s) = strip s.
Proof.
  destruct (strip_decompose s) as (_ & _ & _ & _ & _ & Hl & Hr).
  rewrite <- (app_nil_r (strip s)) at 1.
  now apply (strip_of_padded [] (strip s) []).
Qed.

Section LowerLaws.
Context (ucd : UnicodeData) (laws : UnicodeLaws ucd).

Abbreviation stable :=
  (Forall (fun d => d <> 0x3A3%N /\ to_lower_full ucd d = [d])).
Abbreviation spaceless := (Forall (fun d => isspace d = false)).

Lemma lower_ucs4_space (b : pystr) (c : N) (a : pystr) :
  isspace c = true -> lower_ucs4 ucd b c a = [c].
Proof.
  intros Hc. unfold lower_ucs4.
  destruct (N.eqb_spec c 0x3A3) as [->|_]; [discriminate Hc|].
  now apply lower_of_space.
Qed.

(** What one code point lower-cases to: never nothing, never white space
    unless it was white space, and always lower-cased for good. *)
Lemma lower_ucs4_block (b : pystr) (c : N) (a : pystr) :
  lower_ucs4 ucd b c a <> [] /\
  stable (lower_ucs4 ucd b c a) /\
  (isspace c = false -> spaceless (lower_ucs4 ucd b c a)).
Proof.
  unfold lower_ucs4, handle_capital_sigma.
  destruct (N.eqb_spec c 0x3A3) as [->|_].
  - destruct sigma_stable as [H2 H3].
    destruct (final_sigma ucd b a); repeat split; try discriminate;
      repeat constructor; auto; discriminate.
  - split; [apply lower_nonempty|]. split.
    + apply Forall_forall. intros d Hd. apply list_elem_of_In in Hd.
      now apply (lower_stable c).
    + intros Hc. apply Forall_forall. intros d Hd.
      apply list_elem_of_In in Hd. now apply (lower_no_space c).
Qed.

Lemma do_lower_stable (b s : pystr) : stable (do_lower ucd b s).
Proof.
  revert b. induction s as [|c s IH]; intros b; cbn; [constructor|].
  apply Forall_app. split; [apply lower_ucs4_block|apply IH].
Qed.

Lemma do_lower_of_stable (b s : pystr) : stable s -> do_lower ucd b s = s.
Proof.
  intros Hs. revert b. induction Hs as [|d s [Hd1 Hd2] _ IH]; intros b;
    [reflexivity|].
  cbn. unfold lower_ucs4. apply N.eqb_neq in Hd1. rewrite Hd1, Hd2.
  cbn. now rewrite IH.
Qed.

Lemma lower_idempotent (s : pystr) :
  lower ucd (lower ucd s) = lower ucd s.
Proof. apply do_lower_of_stable, do_lower_stable. Qed.

Lemma do_lower_spaces (b w : pystr) : spaces w -> do_lower ucd b w = w.
Proof.
  intros Hw. revert b. induction Hw as [|c w Hc _ IH]; intros b;
    [reflexivity|].
  cbn. now rewrite lower_ucs4_space, IH.
Qed.

(** White space next to a capital sigma looks like the end of the
    string. *)
Lemma skip_ignorable_padded (x w : pystr) :
  spaces w ->
  dropwhile (is_case_ignorable ucd) (x ++ w)%list
  = match dropwhile (is_case_ignorable ucd) x with
    | [] => w
    | c :: r => (c :: r ++ w)%list
    end.
Proof.
  intros Hw. induction x as [|c x IH]; cbn.
  - destruct Hw as [|s w Hs _]; [reflexivity|].
    cbn. now rewrite space_not_ignorable.
  - destruct (is_case_ignorable ucd c); [exact IH|reflexivity].
Qed.

Lemma final_sigma_padded (b w1 a w2 : pystr) :
  spaces w1 -> spaces w2 ->
  final_sigma ucd (b ++ w1)%list (a ++ w2)%list = final_sigma ucd b a.
Proof.
  intros H1 H2. unfold final_sigma.
  rewrite !skip_ignorable_padded by assumption.
  destruct (dropwhile (is_case_ignorable ucd) b) as [|c r].
  - destruct H1 as [|s w1 Hs _]; [reflexivity|].
    now rewrite space_not_cased.
  - cbn [app]. f_equal.
    destruct (dropwhile (is_case_ignorable ucd) a) as [|d r']; [|reflexivity].
    destruct H2 as [|s w2 Hs _]; [reflexivity|].
    now rewrite space_not_cased.
Qed.

Lemma do_lower_padded_right (b w1 x w2 : pystr) :
  spaces w1 -> spaces w2 ->
  do_lower ucd (b ++ w1)%list (x ++ w2)%list
  = (do_lower ucd b x ++ w2)%list.
Proof.
  intros H1 H2. revert b. induction x as [|c x IH]; intros b.
  - cbn [app do_lower]. now apply do_lower_spaces.
  - cbn [app do_lower].
    change (c :: (b ++ w1)%list) with ((c :: b) ++ w1)%list.
    rewrite IH, <- app_assoc. f_equal.
    unfold lower_ucs4, handle_capital_sigma.
    now rewrite final_sigma_padded.
Qed.

Lemma do_lower_padded_left (b w s : pystr) :
  spaces w ->
  do_lower ucd b (w ++ s)%list = (w ++ do_lower ucd (rev w ++ b) s)%list.
Proof.
  intros Hw. revert b. induction Hw as [|c w Hc _ IH]; intros b;
    [reflexivity|].
  cbn [app do_lower rev]. rewrite lower_ucs4_space by assumption.
  rewrite IH, <- app_assoc. reflexivity.
Qed.

Lemma lower_padded (w1 x w2 : pystr) :
  spaces w1 -> spaces w2 ->
  lower ucd (w1 ++ x ++ w2)%list = (w1 ++ lower ucd x ++ w2)%list.
Proof.
  intros H1 H2. unfold lower.
  rewrite do_lower_padded_left by assumption. f_equal.
  rewrite app_nil_r.
  change (rev w1) with ([] ++ rev w1)%list.
  apply do_lower_padded_right; [now apply Forall_rev|assumption].
Qed.

(** Lower-casing a trimmed string gives a trimmed string. *)
Lemma do_lower_head (b : pystr) (c : N) (x : pystr) :
  isspace c = false -> lstrip (do_lower ucd b (c :: x)) = do_lower ucd b (c :: x).
Proof.
  intros Hc. cbn [do_lower].
  destruct (lower_ucs4_block b c x) as (Hne & _ & Hns).
  specialize (Hns Hc).
  destruct (lower_ucs4 ucd b c x) as [|d r]; [congruence|].
  inversion Hns; subst. now apply dropwhile_stop.
Qed.

Lemma do_lower_last (b x : pystr) (c : N) :
  isspace c = false ->
  exists pre d,
    do_lower ucd b (x ++ [c])%list = (pre ++ [d])%list /\ isspace d = false.
Proof.
  intros Hc. revert b. induction x as [|e x IH]; intros b.
  - cbn [app do_lower]. rewrite app_nil_r.
    destruct (lower_ucs4_block b c []) as (Hne & _ & Hns).
    specialize (Hns Hc).
    destruct (exists_last Hne) as (pre & d & Heq). rewrite Heq in *.
    exists pre, d. split; [reflexivity|].
    apply Forall_app in Hns as [_ Hd]. now inversion Hd.
  - cbn [app do_lower].
    destruct (IH (e :: b)) as (pre & d & Heq & Hd).
    exists (lower_ucs4 ucd b e (x ++ [c]) ++ pre)%list, d.
    rewrite Heq, app_assoc. auto.
Qed.

Lemma lower_trimmed (x : pystr) :
  lstrip x = x -> rstrip x = x ->
  lstrip (lower ucd x) = lower ucd x /\ rstrip (lower ucd x) = lower ucd x.
Proof.
  intros Hl Hr. split.
  - destruct (dropwhile_fixed _ _ Hl) as [->|(c & x' & -> & Hc)];
      [reflexivity|].
    now apply do_lower_head.
  - assert (dropwhile isspace (rev x) = rev x) as Hr'.
    { unfold rstrip in Hr. rewrite <- Hr at 2. now rewrite rev_involutive. }
    destruct (dropwhile_fixed _ _ Hr') as [Hnil|(c & r & Hrev & Hc)].
    + apply (f_equal (@rev N)) in Hnil. rewrite rev_involutive in Hnil.
      now subst.
    + apply (f_equal (@rev N)) in Hrev. rewrite rev_involutive in Hrev.
      cbn in Hrev. subst x.
      destruct (do_lower_last [] (rev r) c Hc) as (pre & d & Heq & Hd).
      unfold lower, rstrip. rewrite Heq, rev_app_distr. cbn [rev app].
      rewrite dropwhile_stop by assumption.
      cbn [rev]. now rewrite rev_involutive.
Qed.

Lemma lower_strip_commute (s : pystr) :
  strip (lower ucd s) = lower ucd (strip s).
Proof.
  destruct (strip_decompose s) as (w1 & w2 & Hs & H1 & H2 & Hl & Hr).
  rewrite Hs at 1. rewrite lower_padded by assumption.
  destruct (lower_trimmed _ Hl Hr).
  now apply strip_of_padded.
Qed.

(** The text [handle_response] compares is the same for [text] and for
    [text.strip().lower()]. *)
Lemma normalise_strip_lower (s : pystr) :
  strip (lower ucd (lower ucd (strip s))) = strip (lower ucd s).
Proof.
  rewrite lower_idempotent, <- lower_strip_commute.
  apply strip_idempotent.
Qed.

End LowerLaws.

Lemma isspace_true_iff (c : N) :
  isspace c = true <->
  (0x09 <= c <= 0x0D \/ 0x1C <= c <= 0x20 \/ c = 0x85 \/ c = 0xA0 \/
   c = 0x1680 \/ 0x2000 <= c <= 0x200A \/ c = 0x2028 \/ c = 0x2029 \/
   c = 0x202F \/ c = 0x205F \/ c = 0x3000)%N.
Proof.
  unfold isspace.
  rewrite !orb_true_iff, !andb_true_iff, !N.leb_le, !N.eqb_eq. tauto.
Qed.

Lemma isspace_false_iff (c : N) :
  isspace c = false <->
  ~ (0x09 <= c <= 0x0D \/ 0x1C <= c <= 0x20 \/ c = 0x85 \/ c = 0xA0 \/
     c = 0x1680 \/ 0x2000 <= c <= 0x200A \/ c = 0x2028 \/ c = 0x2029 \/
     c = 0x202F \/ c = 0x205F \/ c = 0x3000)%N.
Proof. rewrite <- isspace_true_iff. now destruct (isspace c). Qed.

Ltac split_small_to_lower c :=
  unfold small_to_lower;
  destruct (N.leb_spec 0x41 c), (N.leb_spec c 0x5A),
           (N.leb_spec 0x410 c), (N.leb_spec c 0x42F),
           (N.leb_spec 0x400 c), (N.leb_spec c 0x40F),
           (N.eqb_spec c 0x3A3);
  cbn [andb]; try lia.

#[global] Instance small_ucd_laws : UnicodeLaws small_ucd.
Proof.
  split; cbn [to_lower_full is_cased is_case_ignorable small_ucd].
  - intros c Hc. apply isspace_true_iff in Hc.
    split_small_to_lower c; reflexivity.
  - intros c. split_small_to_lower c; discriminate.
  - intros c d Hc Hd. apply isspace_false_iff in Hc.
    apply isspace_false_iff.
    revert Hd. split_small_to_lower c; cbn; intros [<-|[]]; lia.
  - intros c d Hd.
    assert (d <> 0x3A3 /\
            ~ (0x41 <= d <= 0x5A) /\ ~ (0x410 <= d <= 0x42F) /\
            ~ (0x400 <= d <= 0x40F))%N as (Hs & H1 & H2 & H3).
    { revert Hd. split_small_to_lower c; cbn; intros [<-|[]]; lia. }
    split; [exact Hs|]. split_small_to_lower d; reflexivity.
  - split; reflexivity.
  - intros c Hc. apply isspace_true_iff in Hc. unfold small_is_case_ignorable.
    rewrite !orb_false_iff, !andb_false_iff, !N.leb_gt, !N.eqb_neq. lia.
  - intros c Hc. apply isspace_true_iff in Hc. unfold small_is_cased.
    rewrite !orb_false_iff, !andb_false_iff, !N.leb_gt, !N.eqb_neq. lia.
Qed.



(** * Further properties of the program *)

(** ** The data file *)

Lemma from_dict_inverts_to_dict (today : string) (state : VitaminState) :
  from_dict today (to_dict state) = state.
Proof. now destruct state. Qed.

(** X1: reading back the dict of a state gives the state, whatever the
    clock reads at that moment; so two states with the same dict are the
    same state. *)
Theorem from_dict_to_dict (today : string) (state : VitaminState) :
  from_dict today (to_dict state) = state /\
  forall other, to_dict other = to_dict state -> other = state.
Proof.
  split; [apply from_dict_inverts_to_dict|].
  intros other H. rewrite <- (from_dict_inverts_to_dict today other), H.
  apply from_dict_inverts_to_dict.
Qed.

(** X2: a stored record without the key [last_reset] is stamped with the
    date of loading, so the rollover check of that day leaves the flags and
    counters of the file alone. *)
Theorem from_dict_without_date (today : string) (data : StateDict) :
  d_last_reset data = None ->
  last_reset (from_dict today data) = today /\
  reset_if_new_day today (from_dict today data) = from_dict today data.
Proof.
  intros Hnone.
  assert (last_reset (from_dict today data) = today) as Hd
    by (unfold from_dict; cbn; now rewrite Hnone).
  split; [exact Hd|now apply reset_if_new_day_same].
Qed.

Lemma from_dict_without_date_witness :
  let data := {| d_morning_taken := Some true; d_lunch_taken := None;
                 d_morning_reminder_count := Some 2;
                 d_lunch_reminder_count := None; d_last_reset := None |} in
  reset_if_new_day "2024-01-08" (from_dict "2024-01-08" data)
  = {| morning_taken := true; lunch_taken := false;
       morning_reminder_count := 2; lunch_reminder_count := 0;
       last_reset := "2024-01-08" |}.
Proof.
  cbv zeta.
  exact (proj2 (from_dict_without_date "2024-01-08"
                  {| d_morning_taken := Some true; d_lunch_taken := None;
                     d_morning_reminder_count := Some 2;
                     d_lunch_reminder_count := None; d_last_reset := None |}
                  eq_refl)).
Defined.

Section LoadLemmas.
Context (py_int : string -> option Z).

(** An item of ['states'] the comprehension cannot take: [int] rejects the
    key or the value is not a dict. *)
Abbreviation bad_item :=
  (fun item : string * state_json =>
     py_int item.1 = None \/ item.2 = StateOther).

Lemma load_states_fails (today : string) (items : list (string * state_json))
    (acc : gmap Z VitaminState) :
  load_states py_int today items acc = None <-> Exists bad_item items.
Proof.
  revert acc. induction items as [|[k d] items IH]; intros acc; cbn.
  - split; [discriminate|intros H; inversion H].
  - destruct (py_int k) as [uid|] eqn:Hk; [destruct d as [data|]|].
    + rewrite IH. split; [now right|].
      intros H. inversion H as [? ? [Hh|Hh]|]; subst; [| |assumption];
        cbn in Hh; congruence.
    + split; [|reflexivity]. intros _. left. now right.
    + split; [|now destruct d]. intros _. left. now left.
Qed.

Lemma load_data_contents (now : date) (data : FileData) (w : World) :
  load_data py_int now (Contents data) w
  = match
      match f_states data with
      | StatesMissing => Some []
      | StatesObject items => Some items
      | StatesOther => None
      end
    with
    | None => (LoadFailed, w)
    | Some items =>
        match load_states py_int (today now) items ∅ with
        | None => (LoadFailed, w)
        | Some states =>
            match f_registered_users data with
            | UsersUnusable =>
                (LoadFailed,
                 {| user_states := states;
                    registered_users := registered_users w;
                    trace := trace w |})
            | UsersMissing =>
                (Loaded,
                 {| user_states := states; registered_users := ∅;
                    trace := trace w |})
            | UsersList ids =>
                (Loaded,
                 {| user_states := states;
                    registered_users := list_to_set ids;
                    trace := trace w |})
            end
        end
    end.
Proof. unfold load_data. now destruct (f_states data). Qed.

(** X4: how [load_data] fails.  The set of registered users changes only
    when the load goes through.  The states change when it goes through
    and, besides, when the states of the file load but [set] raises on
    the value under ['registered_users']: then the load is logged as
    failed, [user_states] is already the one of the file and
    [registered_users] still the one in memory.  In every other failure
    (unreadable file, a value under ['states'] that is not a dict, a key
    [int] rejects, a user's value that is not a dict) nothing changes;
    without a file nothing happens; and a load that goes through takes
    both globals from the file alone. *)
Theorem load_data_failure_modes (now : date) (file : data_file) (w : World) :
  let res := load_data py_int now file w in
  let states_of data :=
    match f_states data with
    | StatesMissing => Some []
    | StatesObject items => Some items
    | StatesOther => None
    end in
  trace res.2 = trace w /\
  (res.1 <> Loaded -> registered_users res.2 = registered_users w) /\
  (file = NoFile -> res = (NothingToLoad, w)) /\
  (file = Unreadable -> res = (LoadFailed, w)) /\
  (forall data, file = Contents data ->
     (states_of data = None \/
      exists items, states_of data = Some items /\ Exists bad_item items) ->
     res = (LoadFailed, w)) /\
  (forall data items, file = Contents data ->
     states_of data = Some items -> ~ Exists bad_item items ->
     exists states,
       load_states py_int (today now) items ∅ = Some states /\
       user_states res.2 = states /\
       (f_registered_users data = UsersUnusable ->
        res.1 = LoadFailed /\ registered_users res.2 = registered_users w) /\
       (f_registered_users data = UsersMissing ->
        res.1 = Loaded /\ registered_users res.2 = ∅) /\
       (forall ids, f_registered_users data = UsersList ids ->
        res.1 = Loaded /\ registered_users res.2 = list_to_set ids)) /\
  (forall w', res.1 = Loaded ->
     user_states res.2 = user_states (load_data py_int now file w').2 /\
     registered_users res.2
     = registered_users (load_data py_int now file w').2).
Proof.
  cbv zeta.
  destruct file as [| |data].
  - cbn. repeat split; try reflexivity; intros; discriminate.
  - cbn. repeat split; try reflexivity; intros; discriminate.
  - pose proof (fun w' => load_data_contents now data w') as Hw'.
    rewrite load_data_contents.
    destruct (match f_states data with
              | StatesMissing => Some []
              | StatesObject items => Some items
              | StatesOther => None
              end) as [items|] eqn:Hst.
    + pose proof (load_states_fails (today now) items ∅) as Hf.
      destruct (load_states py_int (today now) items ∅) as [states|] eqn:Hl.
      * assert (~ Exists bad_item items) as Hgood
          by (rewrite <- Hf; discriminate).
        split; [now destruct (f_registered_users data)|].
        split; [now destruct (f_registered_users data)|].
        split; [discriminate|]. split; [discriminate|].
        split; [|split].
        -- intros data' [= <-]. rewrite Hst.
           intros [[=]|(it & [= <-] & Hbad)]. contradiction.
        -- intros data' its [= <-]. rewrite Hst. intros [= <-] _.
           exists states. split; [exact Hl|].
           destruct (f_registered_users data); cbn [fst snd];
             (split; [reflexivity|]); repeat apply conj;
             intros; simplify_eq; split; reflexivity.
        -- intros w' HL. rewrite Hw', ?Hst, ?Hl.
           destruct (f_registered_users data);
             [split; reflexivity..|discriminate HL].
      * split; [reflexivity|]. split; [reflexivity|].
        split; [discriminate|]. split; [discriminate|].
        split; [reflexivity|]. split; [|intros w'; discriminate].
        intros data' its [= <-]. rewrite Hst. intros [= <-] Hno.
        destruct Hno. now apply Hf.
    + split; [reflexivity|]. split; [reflexivity|].
      split; [discriminate|]. split; [discriminate|].
      split; [reflexivity|]. split; [|intros w'; discriminate].
      intros data' its [= <-]. rewrite Hst. discriminate.
Qed.

End LoadLemmas.

Lemma fold_insert_lookup (l : list (Z * VitaminState))
    (acc : gmap Z VitaminState) (i : Z) :
  NoDup l.*1 ->
  fold_left (fun m '(k, v) => <[k := v]> m) l acc !! i
  = match (list_to_map l : gmap Z VitaminState) !! i with
    | Some v => Some v
    | None => acc !! i
    end.
Proof.
  revert acc. induction l as [|[k v] l IH]; intros acc Hnd; [reflexivity|].
  cbn in Hnd. apply NoDup_cons in Hnd as [Hk Hnd].
  cbn [fold_left list_to_map foldr fst snd]. rewrite IH by assumption.
  destruct (decide (k = i)) as [->|Hne].
  - rewrite (not_elem_of_list_to_map_1 _ _ Hk).
    now rewrite !lookup_insert_eq.
  - rewrite (lookup_insert_ne (list_to_map l)) by assumption.
    destruct (list_to_map l !! i); [reflexivity|].
    now apply lookup_insert_ne.
Qed.

Lemma fold_insert_map_to_list (m : gmap Z VitaminState) :
  fold_left (fun acc '(k, v) => <[k := v]> acc) (map_to_list m) ∅ = m.
Proof.
  apply map_eq. intros i.
  rewrite fold_insert_lookup by apply NoDup_fst_map_to_list.
  rewrite list_to_map_to_list, lookup_empty. now destruct (m !! i).
Qed.

Lemma load_states_of_dump (py_int : string -> option Z) (laws : IntLaw py_int)
    (today : string) (l : list (Z * VitaminState))
    (acc : gmap Z VitaminState) :
  load_states py_int today
    (map (fun '(user_id, state) =>
            (pretty user_id, StateObject (to_dict state))) l) acc
  = Some (fold_left (fun m '(k, v) => <[k := v]> m) l acc).
Proof.
  revert acc. induction l as [|[k v] l IH]; intros acc; [reflexivity|].
  cbn. now rewrite int_of_str, from_dict_inverts_to_dict, IH.
Qed.

Lemma load_data_dump_roundtrip (py_int : string -> option Z)
    (laws : IntLaw py_int) (now : date) (states : gmap Z VitaminState)
    (users : gset Z) (w : World) :
  load_data py_int now (Contents (dump_data states users)) w
  = (Loaded,
     {| user_states := states; registered_users := users;
        trace := trace w |}).
Proof.
  unfold load_data, dump_data. cbv beta iota zeta delta [f_states].
  rewrite load_states_of_dump by assumption.
  cbv beta iota zeta delta [f_registered_users].
  now rewrite fold_insert_map_to_list, list_to_set_elements_L.
Qed.

(** The plain numeral reader reads what [str] prints. *)
Lemma digit_of_pretty_N_char (d : N) :
  (d < 10)%N -> digit_of (pretty_N_char d) = Some (Z.of_N d).
Proof.
  intros Hd.
  assert (d = 0 \/ d = 1 \/ d = 2 \/ d = 3 \/ d = 4 \/ d = 5 \/ d = 6 \/
          d = 7 \/ d = 8 \/ d = 9)%N as H by lia.
  repeat destruct H as [->|H]; try subst d; reflexivity.
Qed.

Lemma parse_digits_pretty_N_go (x : N) (s : string) :
  parse_digits 0 (pretty_N_go x s) = parse_digits (Z.of_N x) s.
Proof.
  revert s. induction (N.lt_wf_0 x) as [x _ IH]; intros s.
  destruct (decide (x = 0%N)) as [->|Hx]; [reflexivity|].
  rewrite pretty_N_go_step by lia.
  rewrite IH by (apply N.div_lt; lia).
  cbn [parse_digits].
  rewrite digit_of_pretty_N_char by (apply N.mod_lt; lia).
  f_equal. pose proof (N.div_mod x 10). lia.
Qed.

Lemma parse_numeral_pretty_pos (p : positive) :
  parse_numeral (pretty p) = Some (Z.pos p) /\
  forall rest, pretty p <> String "-" rest.
Proof.
  unfold pretty, pretty_positive, pretty, pretty_N.
  rewrite decide_False by discriminate.
  pose proof (parse_digits_pretty_N_go (N.pos p) "") as H.
  cbn [parse_digits] in H.
  destruct (pretty_N_go (N.pos p) "") as [|c r] eqn:E.
  - cbn in H. discriminate H.
  - split; [exact H|]. intros rest [= -> _]. cbn in H. discriminate H.
Qed.

#[global] Instance ascii_int_law : IntLaw ascii_int.
Proof.
  intros [|p|p].
  - reflexivity.
  - destruct (parse_numeral_pretty_pos p) as [Hp Hd].
    change (pretty (Z.pos p)) with (pretty p).
    unfold ascii_int. destruct (pretty p) as [|c r] eqn:E; [exact Hp|].
    destruct (Ascii.ascii_dec c "-") as [->|Hc]; [now destruct (Hd r)|].
    rewrite <- Hp.
    destruct c as [[] [] [] [] [] [] [] []]; try reflexivity.
    now destruct Hc.
  - destruct (parse_numeral_pretty_pos p) as [Hp _].
    change (ascii_int (pretty (Z.neg p)))
      with (Z.opp <$> parse_numeral (pretty p)).
    now rewrite Hp.
Qed.

(** ** Persistence *)

Lemma file_after_saved (file : data_file) (tr : list event)
    (states : gmap Z VitaminState) (users : gset Z) :
  file_after file (tr ++ [Saved states users])
  = Contents (dump_data states users).
Proof. unfold file_after. now rewrite fold_left_app. Qed.

Lemma file_after_sent (file : data_file) (tr : list event) (chat_id : Z)
    (text : string) (kb ok : bool) :
  file_after file (tr ++ [SendMessage chat_id text kb ok])
  = file_after file tr.
Proof. unfold file_after. now rewrite fold_left_app. Qed.

Lemma file_after_logged (file : data_file) (tr : list event) (user_id : Z) :
  file_after file (tr ++ [LogError user_id]) = file_after file tr.
Proof. unfold file_after. now rewrite fold_left_app. Qed.

Ltac file_in_sync :=
  cbn [fst snd user_states registered_users trace];
  rewrite ?file_after_sent, ?file_after_logged, ?after_access_trace;
  rewrite ?file_after_sent, ?file_after_logged;
  rewrite file_after_saved;
  rewrite ?after_access_registered; reflexivity.

(** X5: when a handler returns, the data file holds exactly the states and
    the registered users that are in memory (the writes going through):
    every change a handler makes is saved before it ends, also when its
    send fails, because the reminder handler changes nothing between the
    accessor's save and a failing send. *)
Theorem handlers_leave_file_in_sync
    (ucd : UnicodeData) (now : date) (notifier : Z -> string -> bool)
    (update : Update) (user_id : Z) (reminder_type user_name : string)
    (file : data_file) (w : World) (jobs : list Job) :
  let in_sync (w' : World) :=
    file_after file (trace w')
    = Contents (dump_data (user_states w') (registered_users w')) in
  in_sync (run (get_user_state now user_id) w).2 /\
  in_sync (run (status now notifier update) w).2 /\
  in_sync (run (reset now notifier update) w).2 /\
  in_sync (run (handle_response ucd now notifier update) w).2 /\
  in_sync (run (send_vitamin_reminder now notifier user_id reminder_type) w).2
  /\
  in_sync (app_world
             (start now notifier update user_name
                {| app_world := w; app_jobs := jobs |}).2).
Proof.
  cbv beta zeta. repeat apply conj.
  - rewrite get_user_state_run. file_in_sync.
  - unfold run, status. cbv zeta. rewrite handler_after_access.
    run_handler. file_in_sync.
  - unfold run, reset. cbv zeta. rewrite handler_after_access.
    run_handler. file_in_sync.
  - unfold run, handle_response. cbv zeta. rewrite handler_after_access.
    set (st := accessed now (effective_user_id update) w).
    repeat case_bool_decide; split_state st; run_handler; file_in_sync.
  - rewrite send_vitamin_reminder_run.
    set (st := accessed now user_id w).
    unfold reminder_branch, missing_doses.
    split_slot reminder_type; split_state st; cbn [app]; run_handler;
      repeat match goal with
      | |- context [notifier ?u ?t] => destruct (notifier u t)
      end;
      file_in_sync.
  - unfold start. cbv zeta. cbn [app_world app_jobs].
    rewrite get_user_state_eq. cbn [snd app_world app_jobs].
    rewrite after_access_registered.
    unfold get_schedule_times.
    destruct (is_weekend now); cbn [schedule_item find String.eqb Ascii.eqb
                                    Bool.eqb fst snd fmap option_fmap
                                    option_map];
      case_decide; unfold register_user; run_handler;
      cbn [app_world app_jobs fst snd user_states registered_users trace];
      file_in_sync.
Qed.

(** ** What the handlers change *)

(** The store after the reminder handler: the record of the user is the
    accessed one, possibly with one counter set. *)
Lemma send_vitamin_reminder_store
    (now : date) (notifier : Z -> string -> bool) (user_id : Z)
    (reminder_type : string) (w : World) :
  let st := accessed now user_id w in
  let res := run (send_vitamin_reminder now notifier user_id reminder_type) w in
  registered_users res.2 = registered_users w /\
  exists st',
    user_states res.2 = <[user_id := st']> (user_states w) /\
    (st' = st \/ st' = set_morning_reminder_count 1 st \/
     st' = set_morning_reminder_count 2 st \/
     st' = set_lunch_reminder_count 1 st).
Proof.
  cbv zeta. rewrite send_vitamin_reminder_run.
  set (st := accessed now user_id w).
  unfold reminder_branch, missing_doses.
  split_slot reminder_type; split_state st; cbn [app]; run_handler;
    repeat match goal with
    | |- context [notifier ?u ?t] => destruct (notifier u t)
    end;
    cbn [fst snd user_states registered_users trace];
    rewrite ?after_access_registered, ?after_access_states,
            ?alter_insert_eq;
    (split; [reflexivity|]); eexists; (split; [reflexivity|]); fold st; tauto.
Qed.

(** The store after a reply: the record of the user is the accessed one,
    possibly with one flag set. *)
Lemma handle_response_store
    (ucd : UnicodeData) (now : date) (notifier : Z -> string -> bool)
    (update : Update) (w : World) :
  let user_id := effective_user_id update in
  let st := accessed now user_id w in
  let res := run (handle_response ucd now notifier update) w in
  registered_users res.2 = registered_users w /\
  exists st',
    user_states res.2 = <[user_id := st']> (user_states w) /\
    (st' = st \/
     morning_taken st = false /\ st' = set_morning_taken true st \/
     lunch_taken st = false /\ st' = set_lunch_taken true st).
Proof.
  cbv zeta. unfold run, handle_response. cbv zeta.
  rewrite handler_after_access.
  set (user_id := effective_user_id update).
  set (st := accessed now user_id w).
  repeat case_bool_decide;
    destruct (morning_taken st) eqn:Hm, (lunch_taken st) eqn:Hl;
    cbn [negb]; run_handler;
    rewrite ?after_access_registered, ?after_access_states,
            ?alter_insert_eq;
    (split; [reflexivity|]); eexists; (split; [reflexivity|]); fold st; tauto.
Qed.

Lemma reset_store
    (now : date) (notifier : Z -> string -> bool) (update : Update)
    (w : World) :
  let user_id := effective_user_id update in
  let res := run (reset now notifier update) w in
  registered_users res.2 = registered_users w /\
  user_states res.2
  = <[user_id := VitaminState_init (today now)]> (user_states w).
Proof.
  cbv zeta. unfold run, reset. cbv zeta. rewrite handler_after_access.
  run_handler. rewrite after_access_registered, after_access_states.
  rewrite !alter_insert_eq. split; [reflexivity|]. f_equal.
  unfold set_lunch_reminder_count, set_morning_reminder_count,
    set_lunch_taken, set_morning_taken, VitaminState_init. cbn.
  now rewrite accessed_last_reset.
Qed.

Lemma status_store
    (now : date) (notifier : Z -> string -> bool) (update : Update)
    (w : World) :
  let user_id := effective_user_id update in
  let res := run (status now notifier update) w in
  registered_users res.2 = registered_users w /\
  user_states res.2 = <[user_id := accessed now user_id w]> (user_states w).
Proof.
  cbv zeta. unfold run, status. cbv zeta. rewrite handler_after_access.
  run_handler. now rewrite after_access_registered, after_access_states.
Qed.

(** X6: a handler touches the record of one user only, the one it runs
    for, and never the set of registered users: the accessor, [/status],
    [/reset], a reply and a reminder leave every other user's record as it
    was; [/schedule] leaves the whole store alone and saves nothing. *)
Theorem handlers_touch_one_user
    (ucd : UnicodeData) (now : date) (notifier : Z -> string -> bool)
    (update : Update) (user_id : Z) (reminder_type : string) (w : World)
    (other : Z) :
  let untouched (who : Z) (w' : World) :=
    registered_users w' = registered_users w /\
    (other <> who -> state_of other w' = state_of other w) in
  untouched user_id (run (get_user_state now user_id) w).2 /\
  untouched user_id
    (run (send_vitamin_reminder now notifier user_id reminder_type) w).2 /\
  untouched (effective_user_id update)
    (run (handle_response ucd now notifier update) w).2 /\
  untouched (effective_user_id update) (run (reset now notifier update) w).2 /\
  untouched (effective_user_id update) (run (status now notifier update) w).2
  /\
  let shown := (run (schedule_info now notifier update) w).2 in
  user_states shown = user_states w /\
  registered_users shown = registered_users w /\
  file_after NoFile (trace shown) = file_after NoFile (trace w).
Proof.
  cbv beta zeta. unfold state_of. repeat apply conj.
  - now rewrite get_user_state_run.
  - rewrite get_user_state_run. intros Hne. cbn [snd].
    rewrite after_access_states. now apply lookup_insert_ne.
  - apply send_vitamin_reminder_store.
  - destruct (send_vitamin_reminder_store now notifier user_id
                reminder_type w) as (_ & st' & -> & _).
    intros Hne. now apply lookup_insert_ne.
  - apply handle_response_store.
  - destruct (handle_response_store ucd now notifier update w)
      as (_ & st' & -> & _).
    intros Hne. now apply lookup_insert_ne.
  - apply reset_store.
  - destruct (reset_store now notifier update w) as (_ & ->).
    intros Hne. now apply lookup_insert_ne.
  - apply status_store.
  - destruct (status_store now notifier update w) as (_ & ->).
    intros Hne. now apply lookup_insert_ne.
  - unfold run, schedule_info, get_schedule_times.
    destruct (is_weekend now); reflexivity.
  - unfold run, schedule_info, get_schedule_times.
    destruct (is_weekend now); reflexivity.
  - unfold run, schedule_info, get_schedule_times.
    destruct (is_weekend now); cbn; run_handler; apply file_after_sent.
Qed.

Lemma handlers_touch_one_user_witness :
  let w := {| user_states := {[ 3 := VitaminState_init "2024-01-01" ]};
              registered_users := {[ 3 ]}; trace := [] |} in
  state_of 3 (run (send_vitamin_reminder (mkDate 2024 1 8) (fun _ _ => true)
                     7 "lunch_first") w).2
  = state_of 3 w.
Proof.
  cbv zeta.
  refine (proj2 (proj1 (proj2
    (handlers_touch_one_user small_ucd (mkDate 2024 1 8) (fun _ _ => true)
       {| effective_user_id := 7; message_chat_id := 7; message_text := [] |}
       7 "lunch_first" _ 3))) _).
  discriminate.
Defined.

(** X7: a reminder never records or clears a dose and never moves the
    date; a reply never changes a counter or the date and never clears a
    flag.  Both are compared with the state the accessor returned. *)
Theorem reminders_keep_flags_replies_keep_counters
    (ucd : UnicodeData) (now : date) (notifier : Z -> string -> bool)
    (update : Update) (user_id : Z) (reminder_type : string) (w : World) :
  (let st := accessed now user_id w in
   exists st',
     state_of user_id
       (run (send_vitamin_reminder now notifier user_id reminder_type) w).2
     = Some st' /\
     morning_taken st' = morning_taken st /\
     lunch_taken st' = lunch_taken st /\
     last_reset st' = today now) /\
  (let st := accessed now (effective_user_id update) w in
   exists st',
     state_of (effective_user_id update)
       (run (handle_response ucd now notifier update) w).2
     = Some st' /\
     morning_reminder_count st' = morning_reminder_count st /\
     lunch_reminder_count st' = lunch_reminder_count st /\
     last_reset st' = today now /\
     (morning_taken st = true -> morning_taken st' = true) /\
     (lunch_taken st = true -> lunch_taken st' = true)).
Proof.
  cbv zeta. unfold state_of. split.
  - destruct (send_vitamin_reminder_store now notifier user_id
                reminder_type w) as (_ & st' & -> & Hst').
    exists st'. rewrite lookup_insert_eq. split; [reflexivity|].
    pose proof (accessed_last_reset now user_id w).
    destruct Hst' as [-> | [-> | [-> | ->]]]; cbn; auto.
  - destruct (handle_response_store ucd now notifier update w)
      as (_ & st' & -> & Hst').
    exists st'. rewrite lookup_insert_eq. split; [reflexivity|].
    pose proof (accessed_last_reset now (effective_user_id update) w).
    destruct Hst' as [-> | [[_ ->] | [_ ->]]]; cbn; auto.
Qed.

Lemma reminders_keep_flags_replies_keep_counters_witness :
  let w := {| user_states :=
                {[ 7 := set_morning_taken true
                          (VitaminState_init "2024-01-08") ]};
              registered_users := {[ 7 ]}; trace := [] |} in
  exists st',
    state_of 7 (run (handle_response small_ucd (mkDate 2024 1 8)
                       (fun _ _ => true)
                       {| effective_user_id := 7; message_chat_id := 7;
                          message_text := py "нет" |}) w).2 = Some st' /\
    morning_taken st' = true.
Proof.
  cbv zeta.
  destruct (proj2 (reminders_keep_flags_replies_keep_counters small_ucd
                     (mkDate 2024 1 8) (fun _ _ => true)
                     {| effective_user_id := 7; message_chat_id := 7;
                        message_text := py "нет" |} 7 "final"
                     {| user_states :=
                          {[ 7 := set_morning_taken true
                                    (VitaminState_init "2024-01-08") ]};
                        registered_users := {[ 7 ]}; trace := [] |}))
    as (st' & Hs & _ & _ & _ & Hm & _).
  exists st'. split; [exact Hs|]. apply Hm. reflexivity.
Defined.

Lemma accessed_counters_in_range (now : date) (user_id : Z) (w : World) :
  (forall st, state_of user_id w = Some st -> counters_in_range st) ->
  counters_in_range (accessed now user_id w).
Proof.
  intros Hw. unfold accessed, state_of in *.
  destruct (user_states w !! user_id) as [st0|]; cbn.
  - specialize (Hw st0 eq_refl). unfold reset_if_new_day.
    destruct (negb _); [|exact Hw]. unfold counters_in_range. cbn. lia.
  - unfold reset_if_new_day, counters_in_range.
    destruct (negb _); cbn; lia.
Qed.

(** X8: the counters stay in their range.  If every stored record has its
    morning counter in 0..2 and its lunch counter in 0..1, the same holds
    after the accessor, [/status], [/reset], a reply and a reminder, for
    records created or rolled over on the way as well. *)
Theorem handlers_keep_counters_in_range
    (ucd : UnicodeData) (now : date) (notifier : Z -> string -> bool)
    (update : Update) (user_id : Z) (reminder_type : string) (w : World) :
  (forall v st, state_of v w = Some st -> counters_in_range st) ->
  let good (w' : World) :=
    forall v st, state_of v w' = Some st -> counters_in_range st in
  good (run (get_user_state now user_id) w).2 /\
  good (run (status now notifier update) w).2 /\
  good (run (reset now notifier update) w).2 /\
  good (run (handle_response ucd now notifier update) w).2 /\
  good (run (send_vitamin_reminder now notifier user_id reminder_type) w).2.
Proof.
  intros Hw. cbv beta zeta.
  assert (forall u st' (states : gmap Z VitaminState),
            counters_in_range st' ->
            states = <[u := st']> (user_states w) ->
            forall v st, states !! v = Some st -> counters_in_range st)
    as Hins.
  { intros u st' states Hst' -> v st.
    destruct (decide (u = v)) as [->|Hne].
    - rewrite lookup_insert_eq. now intros [= <-].
    - rewrite lookup_insert_ne by assumption. apply Hw. }
  pose proof (accessed_counters_in_range now user_id w (Hw user_id)) as Ha.
  pose proof (accessed_counters_in_range now (effective_user_id update) w
                (Hw (effective_user_id update))) as Hb.
  unfold state_of. repeat apply conj.
  - rewrite get_user_state_run. eapply Hins; [exact Ha|reflexivity].
  - eapply Hins; [exact Hb|apply status_store].
  - eapply Hins; [|apply reset_store]. unfold counters_in_range. cbn. lia.
  - destruct (handle_response_store ucd now notifier update w)
      as (_ & st' & Hs & Hst').
    eapply Hins; [|exact Hs].
    destruct Hst' as [-> | [[_ ->] | [_ ->]]]; exact Hb.
  - destruct (send_vitamin_reminder_store now notifier user_id
                reminder_type w) as (_ & st' & Hs & Hst').
    eapply Hins; [|exact Hs]. unfold counters_in_range in *.
    destruct Hst' as [-> | [-> | [-> | ->]]]; cbn; lia.
Qed.

Lemma handlers_keep_counters_in_range_witness :
  counters_in_range
    (set_lunch_reminder_count 1
       (set_morning_reminder_count 2 (VitaminState_init "2024-01-08"))).
Proof.
  refine (proj2 (proj2 (proj2 (proj2
    (handlers_keep_counters_in_range small_ucd (mkDate 2024 1 8)
       (fun _ _ => true)
       {| effective_user_id := 7; message_chat_id := 7; message_text := [] |}
       7 "lunch_first"
       {| user_states :=
            {[ 7 := set_morning_reminder_count 2
                      (VitaminState_init "2024-01-08") ]};
          registered_users := {[ 7 ]}; trace := [] |} _)))) 7 _ _).
  - intros v st. unfold state_of. cbn [user_states].
    intros [_ <-]%lookup_singleton_Some.
    unfold counters_in_range. cbn. lia.
  - vm_compute. reflexivity.
Defined.

(** ** Which message a firing slot sends *)

Lemma sends_app (tr1 tr2 : list event) :
  sends (tr1 ++ tr2) = (sends tr1 ++ sends tr2)%list.
Proof. apply List.filter_app. Qed.

(** X9: a firing slot attempts at most one message and none for a dose that
    is confirmed: the morning slots send only while the morning dose is
    open, the lunch slots only while the lunch dose is open (the combined
    text when the morning dose is open too), [final] always sends, and a
    slot name the handler does not know sends nothing. *)
Theorem reminder_message_table
    (now : date) (notifier : Z -> string -> bool) (user_id : Z) (w : World) :
  let st := accessed now user_id w in
  let sent reminder_type :=
    sends (trace (run (send_vitamin_reminder now notifier user_id
                         reminder_type) w).2) in
  let message text kb :=
    [SendMessage user_id text kb (notifier user_id text)] in
  sent "morning_first"
  = (sends (trace w) ++
     if morning_taken st then [] else message TEXT_MORNING_FIRST true)%list /\
  sent "morning_second"
  = (sends (trace w) ++
     if morning_taken st then [] else message TEXT_MORNING_SECOND true)%list /\
  sent "lunch_first"
  = (sends (trace w) ++
     if lunch_taken st then []
     else if morning_taken st then message TEXT_LUNCH_FIRST true
          else message TEXT_LUNCH_FIRST_BOTH true)%list /\
  sent "lunch_second"
  = (sends (trace w) ++
     if lunch_taken st then []
     else if morning_taken st then message TEXT_LUNCH_SECOND true
          else message TEXT_LUNCH_SECOND_BOTH true)%list /\
  length (sent "final") = S (length (sends (trace w))) /\
  forall reminder_type,
    ~ In reminder_type ["morning_first"; "morning_second"; "lunch_first";
                        "lunch_second"; "final"] ->
    sent reminder_type = sends (trace w).
Proof.
  cbv beta zeta. set (st := accessed now user_id w).
  assert (forall rt,
            sends (trace (run (send_vitamin_reminder now notifier user_id rt)
                            w).2)
            = (sends (trace w) ++
               sends (trace (try_except
                               (reminder_branch notifier user_id rt st;;
                                save_data) (log_error user_id)
                               {| user_states :=
                                    user_states (after_access now user_id w);
                                  registered_users := registered_users w;
                                  trace := [] |}).2))%list) as Hsplit.
  { intros rt. rewrite send_vitamin_reminder_run. fold st.
    unfold reminder_branch, missing_doses.
    split_slot rt; split_state st; cbn [app]; run_handler;
      repeat match goal with
      | |- context [notifier ?u ?t] => destruct (notifier u t)
      end;
      cbn [fst snd user_states registered_users trace];
      rewrite ?after_access_trace, ?sends_app; cbn [sends List.filter app];
      now rewrite ?app_nil_r. }
  assert (forall rt,
            ~ In rt ["morning_first"; "morning_second"; "lunch_first";
                     "lunch_second"; "final"] ->
            sends (trace (run (send_vitamin_reminder now notifier user_id rt)
                            w).2) = sends (trace w)) as Hother.
  { intros rt Hrt. rewrite Hsplit. unfold reminder_branch.
    cbn in Hrt.
    repeat match goal with
    | |- context [String.eqb rt ?s] =>
        destruct (String.eqb_spec rt s); [exfalso; subst; intuition congruence|]
    end.
    run_handler. cbn. now rewrite app_nil_r. }
  rewrite !Hsplit. unfold reminder_branch, missing_doses.
  repeat apply conj; try exact Hother;
    cbn [String.eqb Ascii.eqb Bool.eqb]; split_state st; cbn [app];
    run_handler;
    repeat match goal with
    | |- context [notifier ?u ?t] => destruct (notifier u t)
    end;
    cbn [fst snd trace sends List.filter app];
    rewrite ?length_app; cbn [length]; try reflexivity; lia.
Qed.

Lemma reminder_message_table_witness :
  sends (trace (run (send_vitamin_reminder (mkDate 2024 1 8)
                       (fun _ _ => true) 7 "evening") empty_world).2)
  = [].
Proof.
  refine (proj2 (proj2 (proj2 (proj2 (proj2
    (reminder_message_table (mkDate 2024 1 8) (fun _ _ => true) 7
       empty_world))))) "evening" _).
  cbn. intuition discriminate.
Defined.

(** ** The first touch of a day *)

Lemma accessed_fresh (now : date) (user_id : Z) (w : World) :
  (forall st0, state_of user_id w = Some st0 -> last_reset st0 <> today now) ->
  accessed now user_id w = VitaminState_init (today now).
Proof.
  intros Hold. unfold accessed, state_of in *.
  destruct (user_states w !! user_id) as [st0|]; cbn.
  - unfold reset_if_new_day, VitaminState_init.
    destruct (String.eqb_spec (today now) (last_reset st0)) as [E|_];
      [|reflexivity].
    now destruct (Hold st0 eq_refl).
  - apply reset_if_new_day_same. reflexivity.
Qed.

(** X10: for a user who is unknown, or whose record carries another date
    than today's, whatever the record says: the accessor hands out the
    cleared state of today; [morning_first] attempts the morning reminder;
    [final] names both doses; an affirmative reply leaves exactly the
    morning dose recorded, the lunch dose open and both counters at 0. *)
Theorem first_touch_of_the_day
    (ucd : UnicodeData) (now : date) (notifier : Z -> string -> bool)
    (update : Update) (w : World) :
  let user_id := effective_user_id update in
  (forall st0, state_of user_id w = Some st0 -> last_reset st0 <> today now) ->
  (run (get_user_state now user_id) w).1
  = Returned (VitaminState_init (today now)) /\
  sends (trace (run (send_vitamin_reminder now notifier user_id
                       "morning_first") w).2)
  = (sends (trace w) ++
     [SendMessage user_id TEXT_MORNING_FIRST true
        (notifier user_id TEXT_MORNING_FIRST)])%list /\
  sends (trace (run (send_vitamin_reminder now notifier user_id "final") w).2)
  = (sends (trace w) ++
     [SendMessage user_id (TEXT_FINAL (NAME_MORNING +:+ " и " +:+ NAME_LUNCH))
        true
        (notifier user_id
           (TEXT_FINAL (NAME_MORNING +:+ " и " +:+ NAME_LUNCH)))])%list /\
  (strip (lower ucd (message_text update)) = py "да" ->
   state_of user_id (run (handle_response ucd now notifier update) w).2
   = Some {| morning_taken := true; lunch_taken := false;
             morning_reminder_count := 0; lunch_reminder_count := 0;
             last_reset := today now |}).
Proof.
  cbv zeta. intros Hold. apply accessed_fresh in Hold.
  rewrite get_user_state_run, !send_vitamin_reminder_run.
  unfold run, handle_response. cbv zeta. rewrite handler_after_access.
  rewrite !Hold. repeat apply conj.
  - reflexivity.
  - unfold reminder_branch. cbn [String.eqb Ascii.eqb Bool.eqb].
    cbn [VitaminState_init morning_taken negb]. run_handler.
    destruct (notifier _ _); cbn [fst snd trace];
      rewrite ?after_access_trace, !sends_app; cbn; now rewrite ?app_nil_r.
  - unfold reminder_branch, missing_doses.
    cbn [String.eqb Ascii.eqb Bool.eqb].
    cbn [VitaminState_init morning_taken lunch_taken negb app join fold_left].
    run_handler.
    destruct (notifier _ _); cbn [fst snd trace];
      rewrite ?after_access_trace, !sends_app; cbn; now rewrite ?app_nil_r.
  - intros ->. rewrite bool_decide_eq_true_2 by reflexivity.
    cbn [VitaminState_init morning_taken negb]. run_handler.
    unfold state_of. cbn [user_states].
    rewrite after_access_states, Hold, alter_insert_eq, lookup_insert_eq.
    reflexivity.
Qed.

Lemma first_touch_of_the_day_witness :
  let w := {| user_states :=
                {[ 7 := {| morning_taken := true; lunch_taken := true;
                           morning_reminder_count := 2;
                           lunch_reminder_count := 1;
                           last_reset := "2024-01-07" |} ]};
              registered_users := {[ 7 ]}; trace := [] |} in
  (run (get_user_state (mkDate 2024 1 8) 7) w).1
  = Returned (VitaminState_init "2024-01-08").
Proof.
  cbv zeta.
  refine (proj1 (first_touch_of_the_day small_ucd (mkDate 2024 1 8)
                   (fun _ _ => true)
                   {| effective_user_id := 7; message_chat_id := 7;
                      message_text := py "да" |} _ _)).
  intros st0. unfold state_of. cbn [user_states effective_user_id].
  intros [_ <-]%lookup_singleton_Some. cbn. discriminate.
Defined.

(** ** Registration and the installed schedule *)

Lemma parse_digits_underscore (acc : Z) (a b : string) :
  parse_digits acc (a +:+ String "_" b) = None.
Proof.
  revert acc. induction a as [|c a IH]; intros acc; [reflexivity|].
  change (String c a +:+ String "_" b) with (String c (a +:+ String "_" b)).
  cbn [parse_digits]. destruct (digit_of c); [apply IH|reflexivity].
Qed.

Lemma numeral_no_underscore (p : positive) (a b : string) :
  pretty p <> a +:+ String "_" b.
Proof.
  intros H. destruct (parse_numeral_pretty_pos p) as [Hp _].
  rewrite H in Hp. unfold parse_numeral in Hp.
  rewrite parse_digits_underscore in Hp. now destruct a.
Qed.

Lemma pretty_no_underscore (z : Z) (a b : string) :
  pretty z <> a +:+ String "_" b.
Proof.
  destruct z as [|p|p].
  - destruct a as [|c [|c' a]]; discriminate.
  - apply numeral_no_underscore.
  - change (pretty (Z.neg p)) with (String "-" (pretty p)).
    destruct a as [|c a]; [discriminate|]. cbn. intros [= _ H].
    now apply numeral_no_underscore in H.
Qed.

(** No installed job, of whatever user, has a name the removal step of
    any user looks for. *)
Lemma installed_name_never_searched (u v : Z)
    (reminder_type suffix : string) :
  In reminder_type
     ["morning_first"; "morning_second"; "lunch_first"; "lunch_second";
      "final"] ->
  In suffix ["_weekday"; "_weekend"] ->
  reminder_type +:+ "_" +:+ pretty u +:+ suffix
  <> "morning_first_" +:+ pretty v.
Proof.
  intros Hin Hsuf Heq. cbn in Hin, Hsuf.
  destruct Hin as [<-|[<-|[<-|[<-|[<-|[]]]]]]; cbn in Heq;
    try discriminate Heq.
  simplify_eq.
  destruct Hsuf as [<-|[<-|[]]];
    symmetry in Heq; now apply pretty_no_underscore in Heq.
Qed.

Lemma installed_jobs (u : Z) (j : Job) :
  In j (schedule_daily_reminders [] u) ->
  job_chat_id j = u /\
  forall v : Z, job_name j <> "morning_first_" +:+ pretty v.
Proof.
  unfold schedule_daily_reminders.
  cbn [get_jobs_by_name filter list_filter fold_left times_weekday
       times_weekend run_daily app].
  intros Hj. cbn [In] in Hj.
  repeat destruct Hj as [<-|Hj]; try contradiction;
    (split; [reflexivity|]); intros v; cbn [job_name];
    apply installed_name_never_searched; cbn; tauto.
Qed.

Lemma active_triggers_of_installed (u v : Z) :
  active_triggers (schedule_daily_reminders [] u) v
  = if decide (v = u) then schedule_daily_reminders [] u else [].
Proof.
  destruct (decide (v = u)) as [->|Hne]; [apply installed_all_active|].
  unfold schedule_daily_reminders, active_triggers.
  cbn [get_jobs_by_name filter list_filter fold_left times_weekday
       times_weekend run_daily app job_chat_id].
  rewrite !decide_False by congruence. reflexivity.
Qed.

(** A queue in which the users of [D], and only they, have their ten
    triggers. *)
Abbreviation installed_for D q :=
  (forall v : Z,
     active_triggers q v
     = if decide (v ∈ D) then schedule_daily_reminders [] v else []).

Lemma installed_for_names (D : gset Z) (q : list Job) (u : Z) :
  installed_for D q ->
  Forall (fun job => job_name job <> "morning_first_" +:+ pretty u) q.
Proof.
  intros Hq. apply Forall_forall. intros j Hj.
  assert (j ∈ active_triggers q (job_chat_id j)) as Ha
    by (unfold active_triggers; now apply list_elem_of_filter).
  rewrite Hq in Ha. case_decide; [|now apply not_elem_of_nil in Ha].
  apply list_elem_of_In in Ha. now apply installed_jobs in Ha as [_ Hn].
Qed.

Lemma install_extends (D : gset Z) (q : list Job) (u : Z) :
  installed_for D q -> u ∉ D ->
  installed_for ({[ u ]} ∪ D) (schedule_daily_reminders q u).
Proof.
  intros Hq Hu v.
  rewrite schedule_daily_reminders_appends
    by (eapply installed_for_names; eassumption).
  unfold active_triggers. rewrite filter_app.
  fold (active_triggers q v).
  fold (active_triggers (schedule_daily_reminders [] u) v).
  rewrite Hq, active_triggers_of_installed.
  destruct (decide (v = u)) as [->|Hne].
  - rewrite decide_False by assumption.
    rewrite decide_True
      by (apply elem_of_union_l, elem_of_singleton; reflexivity).
    reflexivity.
  - destruct (decide (v ∈ D)).
    + rewrite decide_True by (now apply elem_of_union_r). apply app_nil_r.
    + rewrite decide_False
        by (rewrite elem_of_union, elem_of_singleton; tauto).
      reflexivity.
Qed.

Lemma start_run (now : date) (notifier : Z -> string -> bool)
    (update : Update) (user_name : string) (app : App) :
  let user_id := effective_user_id update in
  let app' := (start now notifier update user_name app).2 in
  (user_id ∈ registered_users (app_world app) ->
   registered_users (app_world app') = registered_users (app_world app) /\
   app_jobs app' = app_jobs app) /\
  (user_id ∉ registered_users (app_world app) ->
   registered_users (app_world app')
   = {[ user_id ]} ∪ registered_users (app_world app) /\
   app_jobs app' = schedule_daily_reminders (app_jobs app) user_id).
Proof.
  cbv zeta. unfold start. cbv zeta. rewrite get_user_state_eq.
  cbn [snd]. rewrite after_access_registered.
  unfold get_schedule_times.
  split; intros Hreg;
    destruct (is_weekend now);
    cbn [schedule_item find String.eqb Ascii.eqb Bool.eqb fst snd fmap
         option_fmap option_map];
    case_decide; try contradiction; unfold register_user; run_handler;
    cbn [app_world app_jobs fst snd user_states registered_users trace];
    rewrite ?after_access_registered; split; reflexivity.
Qed.

(** X12: [/start] keeps the schedule consistent: if every registered user
    has exactly the ten triggers of one install and nobody else has any,
    this is so after [/start] too, and the sender is registered. *)
Theorem start_keeps_schedule_consistent
    (now : date) (notifier : Z -> string -> bool) (update : Update)
    (user_name : string) (app : App) :
  schedule_consistent app ->
  let app' := (start now notifier update user_name app).2 in
  schedule_consistent app' /\
  effective_user_id update ∈ registered_users (app_world app') /\
  length (active_triggers (app_jobs app') (effective_user_id update))
  = 10%nat.
Proof.
  intros Hc. cbv zeta.
  destruct (start_run now notifier update user_name app) as [Hold Hnew].
  assert (schedule_consistent
            (start now notifier update user_name app).2 /\
          effective_user_id update
          ∈ registered_users
              (app_world (start now notifier update user_name app).2))
    as [Hc' Hin].
  { unfold schedule_consistent in *.
    destruct (decide (effective_user_id update
                      ∈ registered_users (app_world app))) as [Hreg|Hreg].
    - destruct (Hold Hreg) as [-> ->]. split; assumption.
    - destruct (Hnew Hreg) as [-> ->].
      split; [now apply install_extends|].
      apply elem_of_union_l, elem_of_singleton. reflexivity. }
  split; [exact Hc'|]. split; [exact Hin|].
  rewrite Hc', decide_True by assumption. apply installed_length.
Qed.

Lemma empty_app_consistent :
  schedule_consistent {| app_world := empty_world; app_jobs := [] |}.
Proof.
  intros v. cbn. now rewrite decide_False by apply not_elem_of_empty.
Qed.

Lemma start_keeps_schedule_consistent_witness :
  length (active_triggers
            (app_jobs (start (mkDate 2024 1 8) (fun _ _ => true)
                         {| effective_user_id := 7; message_chat_id := 7;
                            message_text := py "/start" |} "Anna"
                         {| app_world := empty_world; app_jobs := [] |}).2)
            7) = 10%nat.
Proof.
  apply (start_keeps_schedule_consistent (mkDate 2024 1 8) (fun _ _ => true)
           {| effective_user_id := 7; message_chat_id := 7;
              message_text := py "/start" |} "Anna"
           {| app_world := empty_world; app_jobs := [] |}
           empty_app_consistent).
Defined.

(** X13: a second [/start] of the same user, at any later moment and with
    any text or name, changes neither the set of registered users nor the
    job queue: the guard on [registered_users] keeps the install from
    running twice. *)
Theorem start_again_installs_nothing
    (now now' : date) (notifier notifier' : Z -> string -> bool)
    (update update' : Update) (user_name user_name' : string) (app : App) :
  effective_user_id update' = effective_user_id update ->
  let app1 := (start now notifier update user_name app).2 in
  let app2 := (start now' notifier' update' user_name' app1).2 in
  registered_users (app_world app2) = registered_users (app_world app1) /\
  app_jobs app2 = app_jobs app1.
Proof.
  intros Hid. cbv zeta.
  destruct (start_run now notifier update user_name app) as [Hold Hnew].
  destruct (start_run now' notifier' update' user_name'
              (start now notifier update user_name app).2) as [Hold' _].
  apply Hold'. rewrite Hid.
  destruct (decide (effective_user_id update
                    ∈ registered_users (app_world app))) as [Hreg|Hreg].
  - destruct (Hold Hreg) as [-> _]. exact Hreg.
  - destruct (Hnew Hreg) as [-> _].
    apply elem_of_union_l, elem_of_singleton. reflexivity.
Qed.

Lemma start_again_installs_nothing_witness :
  let update := {| effective_user_id := 7; message_chat_id := 7;
                   message_text := py "/start" |} in
  let app1 := (start (mkDate 2024 1 8) (fun _ _ => true) update "Anna"
                 {| app_world := empty_world; app_jobs := [] |}).2 in
  app_jobs (start (mkDate 2024 1 9) (fun _ _ => false) update "Anna" app1).2
  = app_jobs app1.
Proof.
  cbv zeta.
  apply (start_again_installs_nothing (mkDate 2024 1 8) (mkDate 2024 1 9)
           (fun _ _ => true) (fun _ _ => false)
           {| effective_user_id := 7; message_chat_id := 7;
              message_text := py "/start" |}
           {| effective_user_id := 7; message_chat_id := 7;
              message_text := py "/start" |} "Anna" "Anna" _ eq_refl).
Defined.

Lemma install_all (l : list Z) (D : gset Z) (q : list Job) :
  NoDup l -> (forall u, u ∈ l -> u ∉ D) -> installed_for D q ->
  installed_for (list_to_set l ∪ D)
    (fold_left schedule_daily_reminders l q).
Proof.
  revert D q. induction l as [|u l IH]; intros D q Hnd Hfresh Hq.
  - cbn. now rewrite (left_id_L ∅ (∪)).
  - apply NoDup_cons in Hnd as [Hu Hnd]. cbn [fold_left list_to_set].
    replace ({[u]} ∪ list_to_set l ∪ D)
      with (list_to_set l ∪ ({[u]} ∪ D) : gset Z)
      by (apply set_eq; intros x; rewrite !elem_of_union; tauto).
    apply IH; [assumption| |].
    + intros v Hv. rewrite elem_of_union, elem_of_singleton.
      intros [->|HD]; [contradiction|].
      apply (Hfresh v); [now right|assumption].
    + apply install_extends; [assumption|]. apply Hfresh. now left.
Qed.

Lemma post_init_schedule (now : date) (py_int : string -> option Z)
    (file : data_file) (w : World) :
  schedule_consistent
    (post_init now py_int file {| app_world := w; app_jobs := [] |}).2.
Proof.
  unfold schedule_consistent, post_init. cbn [snd app_world app_jobs].
  set (w1 := (load_data py_int now file w).2).
  pose proof (install_all (elements (registered_users w1)) ∅ []
                (NoDup_elements _)) as H.
  rewrite list_to_set_elements_L, (right_id_L ∅ (∪)) in H.
  apply H; [intros u _; apply not_elem_of_empty|].
  intros v. cbn. now rewrite decide_False by apply not_elem_of_empty.
Qed.

(** X14: after [post_init] on an empty job queue the schedule is
    consistent, whatever the data file holds and whatever [int] does:
    every user registered in the file (or kept in memory when the load
    fails) has exactly ten triggers, every other user none. *)
Theorem post_init_installs_once
    (now : date) (py_int : string -> option Z) (file : data_file)
    (w : World) :
  let app' := (post_init now py_int file
                 {| app_world := w; app_jobs := [] |}).2 in
  schedule_consistent app' /\
  forall user_id,
    length (active_triggers (app_jobs app') user_id)
    = if decide (user_id ∈ registered_users (app_world app'))
      then 10%nat else 0%nat.
Proof.
  cbv zeta. pose proof (post_init_schedule now py_int file w) as Hc.
  split; [exact Hc|]. intros user_id. rewrite Hc.
  case_decide; [apply installed_length|reflexivity].
Qed.

(** X3: a restart loses nothing.  [post_init], run in a fresh process on
    the file [save_data] dumped from some states and registered users,
    loads exactly those states and those users, whatever the clock reads,
    and gives every registered user the ten triggers. *)
Theorem restart_restores (py_int : string -> option Z) (laws : IntLaw py_int)
    (now : date) (states : gmap Z VitaminState) (users : gset Z) :
  let file := Contents (dump_data states users) in
  let res := post_init now py_int file
               {| app_world := empty_world; app_jobs := [] |} in
  load_data py_int now file empty_world
  = (Loaded,
     {| user_states := states; registered_users := users; trace := [] |}) /\
  res.1 = Loaded /\
  user_states (app_world res.2) = states /\
  registered_users (app_world res.2) = users /\
  schedule_consistent res.2.
Proof.
  cbv zeta. split; [now apply load_data_dump_roundtrip|].
  pose proof (post_init_schedule now py_int
                (Contents (dump_data states users)) empty_world) as Hc.
  split; [|split; [|split; [|exact Hc]]];
    unfold post_init; cbn [fst snd app_world];
    now rewrite load_data_dump_roundtrip.
Qed.

Lemma restart_restores_witness :
  let states : gmap Z VitaminState :=
    {[ 7 := VitaminState_init "2024-01-08";
       -3 := set_morning_taken true (VitaminState_init "2024-01-07") ]} in
  user_states
    (app_world
       (post_init (mkDate 2024 1 9) ascii_int
          (Contents (dump_data states {[ 7 ]}))
          {| app_world := empty_world; app_jobs := [] |}).2)
  = states.
Proof.
  cbv zeta. apply (restart_restores ascii_int ascii_int_law).
Defined.

(** ** Dates as ISO strings *)

Lemma length_pretty_N_go (k : nat) (x : N) (s : string) :
  (x < 10 ^ N.of_nat k)%N ->
  (String.length (pretty_N_go x s) <= k + String.length s)%nat.
Proof.
  revert x s. induction k as [|k IH]; intros x s Hx.
  - assert (x = 0%N) as -> by (cbn in Hx; lia). rewrite pretty_N_go_0. lia.
  - destruct (decide (x = 0%N)) as [->|Hx0]; [rewrite pretty_N_go_0; lia|].
    rewrite pretty_N_go_step by lia.
    etransitivity; [apply IH|cbn; lia].
    rewrite Nat2N.inj_succ, N.pow_succ_r' in Hx.
    apply N.Div0.div_lt_upper_bound. lia.
Qed.

Lemma length_pretty_small (k : nat) (z : Z) :
  0 <= z < 10 ^ Z.of_nat k -> (0 < k)%nat ->
  (String.length (pretty z) <= k)%nat.
Proof.
  intros Hz Hk. destruct z as [|p|p]; [cbn; lia| |lia].
  unfold pretty, pretty_Z, pretty, pretty_positive, pretty, pretty_N.
  rewrite decide_False by discriminate.
  pose proof (length_pretty_N_go k (N.pos p) "") as H. cbn in H.
  rewrite Nat.add_0_r in H. apply H.
  apply N2Z.inj_lt. rewrite N2Z.inj_pow, nat_N_Z. cbn. lia.
Qed.

Lemma zero_pad_fold (n a : nat) (s : string) :
  String.length (fold_right (fun _ acc => String "0" acc) s (seq a n))
  = (n + String.length s)%nat /\
  parse_digits 0 (fold_right (fun _ acc => String "0" acc) s (seq a n))
  = parse_digits 0 s.
Proof.
  revert a. induction n as [|n IH]; intros a; [split; reflexivity|].
  destruct (IH (S a)) as [Hl Hp]. cbn [seq fold_right]. split.
  - cbn [String.length]. now rewrite Hl.
  - exact Hp.
Qed.

Lemma parse_digits_pretty (z : Z) :
  0 <= z -> parse_digits 0 (pretty z) = Some z.
Proof.
  intros Hz. destruct z as [|p|p]; [reflexivity| |lia].
  destruct (parse_numeral_pretty_pos p) as [Hp _].
  change (pretty (Z.pos p)) with (pretty p).
  unfold parse_numeral in Hp. now destruct (pretty p).
Qed.

Lemma zero_pad_inj (width : nat) (a b : Z) :
  0 <= a -> 0 <= b ->
  zero_pad width (pretty a) = zero_pad width (pretty b) -> a = b.
Proof.
  intros Ha Hb H. apply (f_equal (parse_digits 0)) in H.
  unfold zero_pad in H.
  rewrite !(proj2 (zero_pad_fold _ _ _)), !parse_digits_pretty in H
    by assumption.
  now injection H.
Qed.

Lemma zero_pad_length (width k : nat) (z : Z) :
  0 <= z < 10 ^ Z.of_nat k -> (0 < k <= width)%nat ->
  String.length (zero_pad width (pretty z)) = width.
Proof.
  intros Hz Hk. unfold zero_pad. rewrite (proj1 (zero_pad_fold _ _ _)).
  pose proof (length_pretty_small k z Hz). lia.
Qed.

Lemma append_inj_length (s1 t1 s2 t2 : string) :
  String.length s1 = String.length s2 ->
  s1 +:+ t1 = s2 +:+ t2 -> s1 = s2 /\ t1 = t2.
Proof.
  revert s2. induction s1 as [|c s1 IH]; intros [|c' s2]; try discriminate.
  - now intros _ H.
  - intros [= Hl] H. injection H as -> H.
    destruct (IH s2 Hl H) as [-> ->]. now split.
Qed.

Lemma valid_bounds (d : date) :
  valid d = true ->
  1 <= year d <= 9999 /\ 1 <= month d <= 12 /\ 1 <= day d.
Proof.
  unfold valid. rewrite !andb_true_iff, !Z.leb_le. tauto.
Qed.

Lemma isoformat_inj (d1 d2 : date) :
  valid d1 = true -> valid d2 = true ->
  isoformat d1 = isoformat d2 -> d1 = d2.
Proof.
  intros (Hy1 & Hm1 & Hd1)%valid_bounds (Hy2 & Hm2 & Hd2)%valid_bounds.
  unfold isoformat. intros H.
  apply (append_inj_length (zero_pad 4 (pretty (year d1))) _
           (zero_pad 4 (pretty (year d2))) _) in H as [Hy H];
    [|rewrite !(zero_pad_length 4 4) by (cbn; lia); reflexivity].
  injection H as H.
  apply (append_inj_length (zero_pad 2 (pretty (month d1))) _
           (zero_pad 2 (pretty (month d2))) _) in H as [Hm H];
    [|rewrite !(zero_pad_length 2 2) by (cbn; lia); reflexivity].
  injection H as H.
  apply zero_pad_inj in Hy, Hm, H; try lia.
  destruct d1, d2; cbn in *; congruence.
Qed.

(** X15: two valid dates have the same ISO string only if they are the
    same date, so the rollover check, which compares strings, leaves a
    state stamped on one date alone exactly when the clock still reads
    that date. *)
Theorem rollover_exactly_on_date_change (now now' : date)
    (state : VitaminState) :
  valid now = true -> valid now' = true ->
  last_reset state = today now ->
  (today now' = today now <-> now' = now) /\
  (reset_if_new_day (today now') state = state <-> now' = now).
Proof.
  intros Hv Hv' Hstamp.
  assert (today now' = today now <-> now' = now) as Hiff.
  { split; [|now intros ->]. unfold today. now apply isoformat_inj. }
  split; [exact Hiff|]. split.
  - intros Hsame. apply Hiff.
    rewrite <- Hstamp, <- Hsame. symmetry. apply reset_if_new_day_last_reset.
  - intros ->. now apply reset_if_new_day_same.
Qed.

Lemma rollover_exactly_on_date_change_witness :
  reset_if_new_day (today (mkDate 2024 1 8))
    (set_morning_taken true (VitaminState_init "2024-01-08"))
  = set_morning_taken true (VitaminState_init "2024-01-08")
  <-> mkDate 2024 1 8 = mkDate 2024 1 8.
Proof.
  apply (rollover_exactly_on_date_change (mkDate 2024 1 8) (mkDate 2024 1 8));
    vm_compute; reflexivity.
Defined.

(** ** Answers *)

(** X16: every command and every text gets exactly one answer attempt, to
    the chat the message came from and without the Yes/No keyboard:
    [/status], [/reset], [/schedule] and [handle_response] each add one
    send to the trace, and it is their last action. *)
Theorem commands_answer_once
    (ucd : UnicodeData) (now : date) (notifier : Z -> string -> bool)
    (update : Update) (w : World) :
  let answered (w' : World) :=
    exists text,
      last (trace w')
      = Some (SendMessage (message_chat_id update) text false
                (notifier (message_chat_id update) text)) /\
      length (sends (trace w')) = S (length (sends (trace w))) in
  answered (run (status now notifier update) w).2 /\
  answered (run (reset now notifier update) w).2 /\
  answered (run (schedule_info now notifier update) w).2 /\
  answered (run (handle_response ucd now notifier update) w).2.
Proof.
  cbv beta zeta.
  assert (forall tr text,
            tr = trace w \/
            (exists s u, tr = trace w ++ [Saved s u])%list \/
            (exists s u s' u',
               tr = (trace w ++ [Saved s u]) ++ [Saved s' u'])%list ->
            exists text',
              last (tr ++ [SendMessage (message_chat_id update) text false
                             (notifier (message_chat_id update) text)])
              = Some (SendMessage (message_chat_id update) text' false
                        (notifier (message_chat_id update) text')) /\
              length (sends (tr ++
                             [SendMessage (message_chat_id update) text false
                                (notifier (message_chat_id update) text)]))
              = S (length (sends (trace w)))) as Hone.
  { intros tr text Htr. exists text. rewrite last_snoc, sends_app.
    split; [reflexivity|].
    destruct Htr as [-> | [(s & u & ->) | (s & u & s' & u' & ->)]];
      rewrite ?sends_app, !length_app; cbn; lia. }
  repeat apply conj.
  - unfold run, status. cbv zeta. rewrite handler_after_access.
    run_handler. apply Hone. right. left. rewrite after_access_trace. eauto.
  - unfold run, reset. cbv zeta. rewrite handler_after_access.
    run_handler. apply Hone. right. right. rewrite after_access_trace.
    eauto 6.
  - unfold run, schedule_info, get_schedule_times.
    destruct (is_weekend now); cbn; run_handler; apply Hone; now left.
  - unfold run, handle_response. cbv zeta. rewrite handler_after_access.
    set (st := accessed now (effective_user_id update) w).
    repeat case_bool_decide; split_state st; run_handler; apply Hone;
      rewrite after_access_trace; eauto 8.
Qed.

Lemma load_data_failure_modes_witness :
  let w := {| user_states := {[ 7 := VitaminState_init "2024-01-08" ]};
              registered_users := {[ 7 ]}; trace := [] |} in
  let data :=
    {| f_states :=
         StatesObject
           [("12", StateObject
                     (to_dict (set_morning_taken true
                                 (VitaminState_init "2024-01-09"))))];
       f_registered_users := UsersUnusable |} in
  exists states,
    load_states ascii_int "2024-01-09" [("12", StateObject
                     (to_dict (set_morning_taken true
                                 (VitaminState_init "2024-01-09"))))] ∅
    = Some states /\
    user_states (load_data ascii_int (mkDate 2024 1 9) (Contents data) w).2
    = states /\
    (load_data ascii_int (mkDate 2024 1 9) (Contents data) w).1 = LoadFailed
    /\
    registered_users
      (load_data ascii_int (mkDate 2024 1 9) (Contents data) w).2 = {[ 7 ]}.
Proof.
  cbv zeta.
  destruct (proj1 (proj2 (proj2 (proj2 (proj2 (proj2
              (load_data_failure_modes ascii_int (mkDate 2024 1 9)
                 (Contents
                    {| f_states :=
                         StatesObject
                           [("12", StateObject
                              (to_dict (set_morning_taken true
                                 (VitaminState_init "2024-01-09"))))];
                       f_registered_users := UsersUnusable |})
                 {| user_states := {[ 7 := VitaminState_init "2024-01-08" ]};
                    registered_users := {[ 7 ]}; trace := [] |}))))))
              _ _ eq_refl eq_refl)
    as (states & Hl & Hs & Hu & _).
  - intros Hbad. inversion Hbad as [? ? [H|H]|? ? H]; subst;
      [vm_compute in H; discriminate|discriminate|inversion H].
  - exists states. split; [exact Hl|]. split; [exact Hs|].
    exact (Hu eq_refl).
Defined.

(** X17: the defect of C1 on any queue an earlier install left.  On a
    queue in which every registered user has the ten triggers of one
    install and nobody else has any, the lookup of the removal step finds
    no job, so an install removes nothing: the queue grows by ten jobs,
    the triggers of every other user stay as they were, and the user
    installed for ends with ten more than there were, that is with
    twenty, each of the ten twice, if that user was registered already. *)
Theorem install_never_removes (app : App) (user_id : Z) :
  schedule_consistent app ->
  let q' := schedule_daily_reminders (app_jobs app) user_id in
  get_jobs_by_name (app_jobs app) ("morning_first_" +:+ pretty user_id) = [] /\
  q' = (app_jobs app ++ schedule_daily_reminders [] user_id)%list /\
  (forall other, other <> user_id ->
     active_triggers q' other = active_triggers (app_jobs app) other) /\
  active_triggers q' user_id
  = ((if decide (user_id ∈ registered_users (app_world app))
      then schedule_daily_reminders [] user_id else []) ++
     schedule_daily_reminders [] user_id)%list /\
  length (active_triggers q' user_id)
  = if decide (user_id ∈ registered_users (app_world app))
    then 20%nat else 10%nat.
Proof.
  intros Hc. cbv zeta.
  pose proof (installed_for_names _ _ user_id Hc) as Hn.
  split; [now apply get_jobs_by_name_none|].
  rewrite (schedule_daily_reminders_appends _ _ Hn).
  split; [reflexivity|].
  assert (forall v,
            active_triggers
              (app_jobs app ++ schedule_daily_reminders [] user_id) v
            = (active_triggers (app_jobs app) v ++
               active_triggers (schedule_daily_reminders [] user_id) v)%list)
    as Happ by (intros v; unfold active_triggers; apply filter_app).
  split; [|split].
  - intros other Hne.
    rewrite Happ, active_triggers_of_installed, decide_False by assumption.
    apply app_nil_r.
  - now rewrite Happ, installed_all_active, Hc.
  - rewrite Happ, length_app, installed_all_active, installed_length, Hc.
    case_decide; [now rewrite installed_length|reflexivity].
Qed.

(** Users 8 and 7 registered, each installed for once. *)
Lemma two_installs_consistent :
  schedule_consistent
    {| app_world := {| user_states := ∅;
                       registered_users := {[ 7 ]} ∪ ({[ 8 ]} ∪ ∅);
                       trace := [] |};
       app_jobs :=
         schedule_daily_reminders (schedule_daily_reminders [] 8) 7 |}.
Proof.
  unfold schedule_consistent. cbn [app_world app_jobs registered_users].
  apply install_extends; [apply install_extends|].
  - intros v. now rewrite decide_False by apply not_elem_of_empty.
  - apply not_elem_of_empty.
  - intros [H|H]%elem_of_union; [apply elem_of_singleton in H; discriminate H|].
    now apply not_elem_of_empty in H.
Qed.

Lemma install_never_removes_witness :
  let q := schedule_daily_reminders (schedule_daily_reminders [] 8) 7 in
  let q' := schedule_daily_reminders q 7 in
  length q = 20%nat /\
  length q' = 30%nat /\
  length (active_triggers q' 7) = 20%nat /\
  active_triggers q' 8 = active_triggers q 8 /\
  length (active_triggers q' 8) = 10%nat.
Proof.
  cbv zeta.
  pose (H := install_never_removes
               {| app_world := {| user_states := ∅;
                                  registered_users := {[ 7 ]} ∪ ({[ 8 ]} ∪ ∅);
                                  trace := [] |};
                  app_jobs :=
                    schedule_daily_reminders
                      (schedule_daily_reminders [] 8) 7 |}
               7 two_installs_consistent).
  split; [vm_compute; reflexivity|].
  split; [exact (eq_trans (f_equal (@length Job) (proj1 (proj2 H)))
                          ltac:(vm_compute; reflexivity))|].
  split; [exact (eq_trans (proj2 (proj2 (proj2 (proj2 H))))
                          ltac:(vm_compute; reflexivity))|].
  split; [exact (proj1 (proj2 (proj2 H)) 8 ltac:(discriminate))|].
  vm_compute; reflexivity.
Defined.
